(** * yolov3_darknet53_vehicles: the module facade

    A shallow embedding of
    [modules/image/object_detection/yolov3_darknet53_vehicles/module.py]:
    the GPU environment check, the batch loop of [object_detection], the
    serving entry point and the command line entry point.

    Conventions.
    - A Python call either returns a value or raises: [result].
    - The calls made to the inference engine are recorded, in order, in a
      log that every effectful function returns next to its result: [M].
    - Floats are modelled by rationals [Q]: every finite float is a
      rational and comparisons of finite floats are exact.  Rounding and
      the special values (NaN, infinities) are outside this model.
    - Strings are [string]: 8-bit characters, read as ASCII.  Digits and
      white space outside ASCII are not modelled. *)

From Stdlib Require Import List String Ascii Bool Arith ZArith QArith Qminmax Lia.
From Stdlib Require Import DecimalString.
Import ListNotations.

Local Close Scope Q_scope.
Local Open Scope string_scope.
Local Open Scope nat_scope.
Local Open Scope list_scope.

(** ** Exceptions, results and the engine log *)

Inductive exn : Type :=
| RuntimeError            (* raised by [object_detection] itself *)
| KeyError                (* os.environ[...] on an unset variable *)
| IndexError              (* s[0] on an empty string, list index out of range *)
| ValueError              (* int(...) on a non-number, batch_size <= 0 *)
| TypeError
| SyntaxError
| AttributeError          (* self.gpu_predictor when it was never created *)
| DecodeError             (* an image that cannot be read *)
| OutputDirError          (* output_dir cannot be created or written *)
| ClassIdError            (* class id outside the label list *)
| SystemExit (code : Z).  (* argparse: 0 after --help, 2 on a usage error *)

Inductive result (A : Type) : Type :=
| Ok (a : A)
| Raise (e : exn).
Arguments Ok {A} a.
Arguments Raise {A} e.

Definition bindR {A B} (c : result A) (k : A -> result B) : result B :=
  match c with
  | Ok a => k a
  | Raise e => Raise e
  end.

Declare Scope py_scope.
Delimit Scope py_scope with py.
Notation "'let*' x ':=' c 'in' k" := (bindR c (fun x => k))
  (at level 10, x name, c at level 100, k at level 200) : py_scope.
Local Open Scope py_scope.

(** [mapR f l] is the list comprehension [[f(x) for x in l]]: elements are
    computed left to right and the first exception ends the computation. *)
Fixpoint mapR {A B} (f : A -> result B) (l : list A) : result (list B) :=
  match l with
  | [] => Ok []
  | x :: rest =>
      let* y := f x in
      let* ys := mapR f rest in
      Ok (y :: ys)
  end.

(** ** Python values that reach the module from the command line *)

Inductive PyVal : Type :=
| VNone
| VBool (b : bool)
| VInt (z : Z)
| VFloat (q : Q)
| VStr (s : string).

(** Truth value testing, as in [if use_gpu:]. *)
Definition truthy (v : PyVal) : bool :=
  match v with
  | VNone => false
  | VBool b => b
  | VInt z => negb (z =? 0)%Z
  | VFloat q => negb (Qeq_bool q 0)
  | VStr s => negb (String.eqb s "")
  end.

(** ** The built-in [int] on a string

    [int(s)] for a [str]: surrounding white space is dropped, one sign is
    allowed, then decimal digits in which single underscores may separate
    digits. *)

Definition is_digit (c : ascii) : bool :=
  ((48 <=? nat_of_ascii c) && (nat_of_ascii c <=? 57))%nat.

Definition digit_val (c : ascii) : Z := Z.of_nat (nat_of_ascii c - 48).

Definition is_space (c : ascii) : bool :=
  let n := nat_of_ascii c in
  ((n =? 32) || ((9 <=? n) && (n <=? 13)))%nat.

Fixpoint lstrip (s : string) : string :=
  match s with
  | String c rest => if is_space c then lstrip rest else s
  | EmptyString => EmptyString
  end.

Fixpoint rstrip (s : string) : string :=
  match s with
  | String c rest =>
      match rstrip rest with
      | EmptyString => if is_space c then EmptyString else String c EmptyString
      | r => String c r
      end
  | EmptyString => EmptyString
  end.

(** Digits with single underscores between them; [prev] tells whether the
    previous character was a digit. *)
Fixpoint int_digits (s : string) (acc : Z) (prev : bool) : option Z :=
  match s with
  | EmptyString => if prev then Some acc else None
  | String c rest =>
      if is_digit c then int_digits rest (10 * acc + digit_val c)%Z true
      else if Ascii.eqb c "_"%char then
             if prev then int_digits rest acc false else None
           else None
  end.

Definition py_int (s : string) : result Z :=
  let body := rstrip (lstrip s) in
  let signed :=
    match body with
    | String "-"%char rest => option_map Z.opp (int_digits rest 0%Z false)
    | String "+"%char rest => int_digits rest 0%Z false
    | _ => int_digits body 0%Z false
    end in
  match signed with
  | Some z => Ok z
  | None => Raise ValueError
  end.

(** ** The environment and the GPU check *)

Definition Environ := string -> option string.

Definition environ_get (env : Environ) (name : string) : result string :=
  match env name with
  | Some v => Ok v
  | None => Raise KeyError
  end.

(** [s[0]] on a string. *)
Definition first_char (s : string) : result string :=
  match s with
  | String c _ => Ok (String c EmptyString)
  | EmptyString => Raise IndexError
  end.

(** The body of the [try] of module.py lines 49-50 and 198-199:
    [_places = os.environ["CUDA_VISIBLE_DEVICES"]; int(_places[0])]. *)
Definition cuda_places_probe (env : Environ) : result Z :=
  let* _places := environ_get env "CUDA_VISIBLE_DEVICES" in
  let* c := first_char _places in
  py_int c.

(** Lines 196-203: the bare [except:] turns every exception of the probe
    into the [RuntimeError]. *)
Definition check_gpu_env (env : Environ) (use_gpu : bool) : result unit :=
  if use_gpu then
    match cuda_places_probe env with
    | Ok _ => Ok tt
    | Raise _ => Raise RuntimeError
    end
  else Ok tt.

(** ** The module object *)

Inductive Predictor : Type :=
| CpuPredictor
| GpuPredictor (device_id : nat).

Record Module : Type := {
  label_names : list string;
  cpu_predictor : Predictor;
  gpu_predictor : option Predictor   (* None: the attribute does not exist *)
}.

(** [_set_config], lines 38-58: the CPU predictor is always created, the
    GPU predictor only when the probe succeeds at start-up. *)
Definition _set_config (env : Environ) (labels : list string) : Module :=
  let use_gpu :=
    match cuda_places_probe env with
    | Ok _ => true
    | Raise _ => false
    end in
  {| label_names := labels;
     cpu_predictor := CpuPredictor;
     gpu_predictor := if use_gpu then Some (GpuPredictor 0) else None |}.

(** [_initialize], lines 31-36, with the label list already loaded. *)
Definition _initialize (env : Environ) (labels : list string) : Module :=
  _set_config env labels.

(** ** Data model *)

(** A decoded image, shape [H, W, C]; the pixels are kept flat. *)
Record Image : Type := {
  im_height : nat;
  im_width : nat;
  im_pixels : list Z
}.

(** An entry of [paths]: a string, or [None] when the command line gave no
    [--input_path]. *)
Inductive PyPath : Type :=
| PNone
| PStr (p : string).

Definition Tensor := list Q.

(** What the reader yields per image: [[im, im_shape]]. *)
Record BatchItem : Type := {
  image_tensor : Tensor;
  im_size : nat * nat            (* original (height, width) *)
}.

(** Modelled from the spec: one row of the engine's output, as
    [postprocess] of processor.py (missing) reads it.  Section 4.3: "one
    output row per detected object across the batch, each row encoding
    {image_index_within_batch, class_id, confidence, x1, y1, x2, y2}". *)
Record Row : Type := {
  image_index : nat;             (* index of the image within the batch *)
  class_id : Z;
  row_confidence : Q;
  x1 : Q; y1 : Q; x2 : Q; y2 : Q
}.

(** Modelled from the spec: the engine's output for one batch.  Besides
    the rows it tells how many images the batch had: postprocessing emits
    "one result record per image" (section 4.4, step 6), also for an image
    without rows, and is not given the batch itself. *)
Record DataOut : Type := {
  im_num : nat;
  rows : list Row
}.

(** The entries of ['data'], docstring of [object_detection], lines
    187-193. *)
Record Detection : Type := {
  label : string;
  confidence : Q;
  left : Q; top : Q; right : Q; bottom : Q
}.

(** One element of the returned list, lines 186-194; [save_path] is
    optional. *)
Record ResultRecord : Type := {
  data : list Detection;
  save_path : option string
}.

(** The log of engine calls and the monad of the facade. *)
Definition Call : Type := Predictor * list BatchItem.
Definition M (A : Type) : Type := list Call * result A.

Definition retM {A} (a : A) : M A := ([], Ok a).
Definition raiseM {A} (e : exn) : M A := ([], Raise e).
Definition liftM {A} (r : result A) : M A := ([], r).
Definition bindM {A B} (c : M A) (k : A -> M B) : M B :=
  match c with
  | (log, Ok a) => let (log', r) := k a in (log ++ log', r)
  | (log, Raise e) => (log, Raise e)
  end.

Notation "x <- c ;; k" := (bindM c (fun x => k))
  (at level 61, c at next level, right associativity) : py_scope.

(** ** The pipeline: reader, batching, engine, postprocessing *)

Section Facade.

(** External collaborators, fixed for one run of the program: the file
    system with the image decoder, the tensor preparation of the reader,
    the inference engine behind both predictors, the output directory,
    the naming of saved images, [base64_to_cv2] of processor.py and
    [ast.literal_eval]. *)
Variable imread : string -> option Image.
Variable preprocess : Image -> Tensor.
Variable predictor_run : Predictor -> list BatchItem -> DataOut.
Variable dir_writable : string -> bool.
Variable save_name : string -> nat -> string.
Variable base64_to_cv2 : string -> result Image.
Variable literal_eval : string -> result PyVal.

(** *** Image reader *)

Inductive Source : Type :=
| FromPath (p : PyPath)
| FromArray (im : Image).

(** Modelled from the spec: the input source of [reader] of data_feed.py
    (missing).  Section 4.2: the reader "accepts at most one of {paths,
    in-memory images} as the live input source, with paths taking
    precedence when both are non-empty". *)
Definition live_source (paths : list PyPath) (images : option (list Image))
  : list Source :=
  match paths with
  | [] => match images with
          | Some ims => map FromArray ims
          | None => []
          end
  | _ :: _ => map FromPath paths
  end.

(** Modelled from the spec: decoding of one input by [reader] of
    data_feed.py (missing).  Section 4.2: "decodes (if needed)" and "fails
    with a decode error if an image cannot be read". *)
Definition load_image (s : Source) : result Image :=
  match s with
  | FromPath (PStr p) =>
      match imread p with
      | Some im => Ok im
      | None => Raise DecodeError
      end
  | FromPath PNone => Raise DecodeError
  | FromArray im => Ok im
  end.

(** Modelled from the spec: [reader] of data_feed.py (missing).  Section
    4.2: for each image it prepares the network input and "records the
    original height/width"; it "produces a lazy sequence", so element [k]
    is the outcome of reading input [k]. *)
Definition reader (paths : list PyPath) (images : option (list Image))
  : list (result BatchItem) :=
  map (fun s =>
         let* im := load_image s in
         Ok {| image_tensor := preprocess im;
               im_size := (im_height im, im_width im) |})
      (live_source paths images).

(** *** Batching: [fluid.io.batch] of the framework, [drop_last=False]

    [b] is the batch under construction.  An exception of the underlying
    reader ends the sequence. *)
Fixpoint batch_reader {A} (batch_size : nat) (r : list (result A)) (b : list A)
  : list (result (list A)) :=
  match r with
  | [] => match b with
          | [] => []
          | _ :: _ => [Ok b]
          end
  | Raise e :: _ => [Raise e]
  | Ok instance :: rest =>
      let b' := b ++ [instance] in
      if List.length b' =? batch_size
      then Ok b' :: batch_reader batch_size rest []
      else batch_reader batch_size rest b'
  end.

Definition batch {A} (r : list (result A)) (batch_size : Z)
  : result (list (result (list A))) :=
  if (batch_size <=? 0)%Z then Raise ValueError
  else Ok (batch_reader (Z.to_nat batch_size) r []).

(** *** Postprocessing *)

(** The side of the square canvas the network sees (module.py line 80,
    [shape=[3, 608, 608]]). *)
Definition canvas : Q := 608%Q.

(** [x < y] on floats. *)
Definition below (x y : Q) : bool := negb (Qle_bool y x).

(** Modelled from the spec: the grouping done by [postprocess] of
    processor.py (missing); step 1 of section 4.4, "group raw rows by
    image index". *)
Definition group_rows (index : nat) (rs : list Row) : list Row :=
  filter (fun r => image_index r =? index) rs.

(** [max(min(x, hi), lo)]. *)
Definition clip (lo hi x : Q) : Q := Qmax lo (Qmin x hi).

(** Modelled from the spec: the box arithmetic of [postprocess] of
    processor.py (missing); step 4 of section 4.4, "rescale box
    coordinates from canvas space back to the image's original pixel
    space using the recorded original size (linear scale factor per
    axis); clip to image bounds". *)
Definition rescale_x (im : Image) (x : Q) : Q :=
  (x * (inject_Z (Z.of_nat (im_width im)) / canvas))%Q.
Definition rescale_y (im : Image) (y : Q) : Q :=
  (y * (inject_Z (Z.of_nat (im_height im)) / canvas))%Q.
Definition clip_x (im : Image) (x : Q) : Q :=
  clip 0%Q (inject_Z (Z.of_nat (im_width im))) x.
Definition clip_y (im : Image) (y : Q) : Q :=
  clip 0%Q (inject_Z (Z.of_nat (im_height im))) y.

(** Modelled from the spec: the label lookup of [postprocess] of
    processor.py (missing); step 3 of section 4.4, "map class id to label
    name via the label list (index must be in range; out-of-range is a
    fatal error)". *)
Definition label_of (labels : list string) (id : Z) : result string :=
  if (id <? 0)%Z then Raise ClassIdError
  else match nth_error labels (Z.to_nat id) with
       | Some l => Ok l
       | None => Raise ClassIdError
       end.

(** Modelled from the spec: what [postprocess] of processor.py (missing)
    makes of one row; steps 3 and 4 of section 4.4. *)
Definition to_detection (labels : list string) (im : Image) (r : Row)
  : result Detection :=
  let* l := label_of labels (class_id r) in
  Ok {| label := l;
        confidence := row_confidence r;
        left := clip_x im (rescale_x im (x1 r));
        top := clip_y im (rescale_y im (y1 r));
        right := clip_x im (rescale_x im (x2 r));
        bottom := clip_y im (rescale_y im (y2 r)) |}.

(** Modelled from the spec: the row loop of [postprocess] of processor.py
    (missing); steps 2 to 4 of section 4.4 over the rows of one image:
    "for each row, discard it if confidence < threshold". *)
Fixpoint detections (labels : list string) (im : Image) (score_thresh : Q)
  (rs : list Row) : result (list Detection) :=
  match rs with
  | [] => Ok []
  | r :: rest =>
      if below (row_confidence r) score_thresh
      then detections labels im score_thresh rest
      else
        let* d := to_detection labels im r in
        let* ds := detections labels im score_thresh rest in
        Ok (d :: ds)
  end.

(** Modelled from the spec: the body of [postprocess] of processor.py
    (missing) for the image at position [index] of the batch whose first
    image is input [handle_id] (section 4.4, steps 1 to 6; [save_path] is
    "set only when visualization was requested"). *)
Definition image_record (paths : list PyPath) (images : option (list Image))
  (data_out : DataOut) (score_thresh : Q) (labels : list string)
  (output_dir : string) (handle_id : nat) (visualization : bool) (index : nat)
  : result ResultRecord :=
  let* src :=
    match nth_error (live_source paths images) (handle_id + index) with
    | Some s => Ok s
    | None => Raise IndexError
    end in
  let* org_img := load_image src in
  let* dets := detections labels org_img score_thresh
                 (group_rows index (rows data_out)) in
  Ok {| data := dets;
        save_path := if visualization
                     then Some (save_name output_dir (handle_id + index))
                     else None |}.

(** Modelled from the spec: [postprocess] of processor.py (missing),
    called at module.py lines 220-228 (section 4.4: "emit one result
    record per image, preserving input order"; it "fails if output_dir
    cannot be created/written"). *)
Definition postprocess (paths : list PyPath) (images : option (list Image))
  (data_out : DataOut) (score_thresh : Q) (labels : list string)
  (output_dir : string) (handle_id : nat) (visualization : bool)
  : result (list ResultRecord) :=
  if visualization && negb (dir_writable output_dir)
  then Raise OutputDirError
  else mapR (image_record paths images data_out score_thresh labels
               output_dir handle_id visualization)
            (seq 0 (im_num data_out)).

(** *** [object_detection], module.py lines 166-230 *)

(** Lines 213-218. *)
Definition run_predictor (self : Module) (use_gpu : bool)
  (feed_data : list BatchItem) : M DataOut :=
  if use_gpu then
    match gpu_predictor self with
    | Some p => ([(p, feed_data)], Ok (predictor_run p feed_data))
    | None => raiseM AttributeError
    end
  else ([(cpu_predictor self, feed_data)],
        Ok (predictor_run (cpu_predictor self) feed_data)).

(** The [for] loop of lines 209-229; [res] is the list built so far. *)
Fixpoint detect_batches (self : Module) (paths : list PyPath)
  (images : option (list Image)) (batch_size : nat) (use_gpu : bool)
  (output_dir : string) (score_thresh : Q) (visualization : bool)
  (res : list ResultRecord) (iter_id : nat)
  (batches : list (result (list BatchItem))) : M (list ResultRecord) :=
  match batches with
  | [] => retM res
  | Raise e :: _ => raiseM e
  | Ok feed_data :: rest =>
      data_out <- run_predictor self use_gpu feed_data ;;
      output <- liftM (postprocess paths images data_out score_thresh
                         (label_names self) output_dir
                         (iter_id * batch_size) visualization) ;;
      detect_batches self paths images batch_size use_gpu output_dir
        score_thresh visualization (res ++ output) (S iter_id) rest
  end.

Definition object_detection (self : Module) (env : Environ)
  (paths : option (list PyPath)) (images : option (list Image))
  (batch_size : Z) (use_gpu : bool) (output_dir : string) (score_thresh : Q)
  (visualization : bool) : M (list ResultRecord) :=
  _ <- liftM (check_gpu_env env use_gpu) ;;
  let paths := match paths with
               | Some l => l
               | None => []
               end in
  let data_reader := reader paths images in
  batches <- liftM (batch data_reader batch_size) ;;
  detect_batches self paths images (Z.to_nat batch_size) use_gpu output_dir
    score_thresh visualization [] 0 batches.

(** *** [serving_method], module.py lines 255-262 *)

(** The keyword options a caller may pass on; an absent option takes the
    default of [object_detection]'s signature (lines 166-173). *)
Record Kwargs : Type := {
  kw_paths : option (option (list PyPath));
  kw_batch_size : option Z;
  kw_use_gpu : option bool;
  kw_output_dir : option string;
  kw_score_thresh : option Q;
  kw_visualization : option bool
}.

Definition or_default {A} (o : option A) (d : A) : A :=
  match o with
  | Some a => a
  | None => d
  end.

(** [self.object_detection(images=images, **kwargs)]. *)
Definition object_detection_kw (self : Module) (env : Environ)
  (images : option (list Image)) (kwargs : Kwargs) : M (list ResultRecord) :=
  object_detection self env
    (or_default (kw_paths kwargs) None)
    images
    (or_default (kw_batch_size kwargs) 1%Z)
    (or_default (kw_use_gpu kwargs) false)
    (or_default (kw_output_dir kwargs) "yolov3_vehicles_detect_output")
    (or_default (kw_score_thresh kwargs) (2 # 10)%Q)
    (or_default (kw_visualization kwargs) true).

Definition serving_method (self : Module) (env : Environ)
  (images : list string) (kwargs : Kwargs) : M (list ResultRecord) :=
  images_decode <- liftM (mapR base64_to_cv2 images) ;;
  object_detection_kw self env (Some images_decode) kwargs.

(** *** The command line, module.py lines 264-327

    The parser is the fragment of argparse these options exercise: exact
    option names, unambiguous prefixes of long names, [--name=value], one
    value per option, [-h]/[--help], unrecognised arguments reported at
    the end.  The parser declares no positional argument: tokens after
    a [--] are not searched for ambiguous prefixes, and a [--] that is
    reached ends the parse with a usage error.  [--] as the value of
    [--name=value] is not modelled. *)

Inductive Dest : Type :=
| DHelp | DUseGpu | DOutputDir | DVisualization
| DInputPath | DBatchSize | DScoreThresh.

(** In order of registration: help, [add_module_config_arg],
    [add_module_input_arg]. *)
Definition option_strings : list (string * Dest) :=
  [ ("-h", DHelp); ("--help", DHelp);
    ("--use_gpu", DUseGpu); ("--output_dir", DOutputDir);
    ("--visualization", DVisualization);
    ("--input_path", DInputPath); ("--batch_size", DBatchSize);
    ("--score_thresh", DScoreThresh) ].

Record Namespace : Type := {
  arg_input_path : PyPath;
  arg_batch_size : PyVal;
  arg_use_gpu : PyVal;
  arg_output_dir : string;
  arg_visualization : PyVal;
  arg_score_thresh : PyVal
}.

(** The [default=] of each [add_argument]; [--input_path] has none. *)
Definition default_namespace : Namespace :=
  {| arg_input_path := PNone;
     arg_batch_size := VInt 1;
     arg_use_gpu := VBool false;
     arg_output_dir := "yolov3_vehicles_detect_output";
     arg_visualization := VBool false;
     arg_score_thresh := VFloat (2 # 10)%Q |}.

Fixpoint lookup_option (name : string) (l : list (string * Dest)) : option Dest :=
  match l with
  | [] => None
  | (s, d) :: rest => if String.eqb s name then Some d else lookup_option name rest
  end.

(** The long options a prefix may abbreviate. *)
Definition abbreviated (pre : string) : list Dest :=
  map snd (filter (fun sd => String.prefix pre (fst sd)) option_strings).

(** [s.split('=', 1)]. *)
Fixpoint split_eq (s : string) : string * option string :=
  match s with
  | EmptyString => (EmptyString, None)
  | String c rest =>
      if Ascii.eqb c "="%char then (EmptyString, Some rest)
      else let (a, b) := split_eq rest in (String c a, b)
  end.

Fixpoint has_space (s : string) : bool :=
  match s with
  | EmptyString => false
  | String c rest => Ascii.eqb c " "%char || has_space rest
  end.

Fixpoint all_digits (s : string) : bool :=
  match s with
  | EmptyString => true
  | String c rest => is_digit c && all_digits rest
  end.

(** Digits, then optionally a dot and at least one digit; [seen] tells
    whether a digit was read since the start or the dot. *)
Fixpoint number_tail (s : string) (seen : bool) : bool :=
  match s with
  | EmptyString => seen
  | String c rest =>
      if is_digit c then number_tail rest true
      else if Ascii.eqb c "."%char
           then match rest with
                | EmptyString => false
                | _ => all_digits rest
                end
           else false
  end.

(** [s] without one final newline: [$] also matches just before it. *)
Fixpoint chomp (s : string) : string :=
  match s with
  | EmptyString => EmptyString
  | String c rest =>
      match rest with
      | EmptyString => if Ascii.eqb c "010"%char then EmptyString else s
      | String _ _ => String c (chomp rest)
      end
  end.

(** argparse's [^-\d+$|^-\d*\.\d+$]. *)
Definition negative_number (s : string) : bool :=
  match s with
  | String "-"%char rest => number_tail (chomp rest) false
  | _ => false
  end.

Fixpoint all_h (s : string) : bool :=
  match s with
  | EmptyString => true
  | String c rest => Ascii.eqb c "h"%char && all_h rest
  end.

(** A non-empty run of [h]. *)
Definition help_flags (explicit_arg : option string) : bool :=
  match explicit_arg with
  | Some (String c rest) => all_h (String c rest)
  | _ => false
  end.

Inductive Token : Type :=
| TArgument                                   (* not an option: a value *)
| TOption (d : Dest) (explicit_arg : option string)
| TAmbiguous                                  (* a prefix of several options *)
| TUnknown.                                   (* an option nobody declared *)

Definition parse_optional (arg : string) : Token :=
  match arg with
  | EmptyString => TArgument
  | String c rest =>
      if negb (Ascii.eqb c "-"%char) then TArgument
      else
        match lookup_option arg option_strings with
        | Some d => TOption d None
        | None =>
            match rest with
            | EmptyString => TArgument
            | String c' _ =>
                let (name, explicit_arg) := split_eq arg in
                let exact :=
                  match explicit_arg with
                  | Some _ => lookup_option name option_strings
                  | None => None
                  end in
                match exact with
                | Some d =>
                    (* -h=hh: the characters after = are read as more
                       -h flags *)
                    if String.eqb name "-h" && help_flags explicit_arg
                    then TOption DHelp None
                    else TOption d explicit_arg
                | None =>
                    let fallback :=
                      if negative_number arg then TArgument
                      else if has_space arg then TArgument
                      else TUnknown in
                    if Ascii.eqb c' "-"%char then
                      match abbreviated name with
                      | [d] => TOption d explicit_arg
                      | _ :: _ :: _ => TAmbiguous
                      | [] => fallback
                      end
                    else if Ascii.eqb c' "h"%char then
                      (* -h glued to more characters: a run of h is help
                         again, anything else is an argument -h refuses *)
                      let glued := substring 2 (String.length arg - 2) arg in
                      if all_h glued then TOption DHelp None
                      else TOption DHelp (Some glued)
                    else fallback
                end
            end
        end
  end.

(** The [type=] conversion of each option; argparse reports a
    [TypeError] or [ValueError] of the conversion as a usage error. *)
Definition convert (s : string) : result PyVal :=
  match literal_eval s with
  | Ok v => Ok v
  | Raise TypeError => Raise (SystemExit 2)
  | Raise ValueError => Raise (SystemExit 2)
  | Raise e => Raise e
  end.

Definition store (d : Dest) (s : string) (ns : Namespace) : result Namespace :=
  match d with
  | DHelp => Raise (SystemExit 2)
  | DInputPath =>
      Ok {| arg_input_path := PStr s;
            arg_batch_size := arg_batch_size ns;
            arg_use_gpu := arg_use_gpu ns;
            arg_output_dir := arg_output_dir ns;
            arg_visualization := arg_visualization ns;
            arg_score_thresh := arg_score_thresh ns |}
  | DOutputDir =>
      Ok {| arg_input_path := arg_input_path ns;
            arg_batch_size := arg_batch_size ns;
            arg_use_gpu := arg_use_gpu ns;
            arg_output_dir := s;
            arg_visualization := arg_visualization ns;
            arg_score_thresh := arg_score_thresh ns |}
  | DBatchSize =>
      let* v := convert s in
      Ok {| arg_input_path := arg_input_path ns;
            arg_batch_size := v;
            arg_use_gpu := arg_use_gpu ns;
            arg_output_dir := arg_output_dir ns;
            arg_visualization := arg_visualization ns;
            arg_score_thresh := arg_score_thresh ns |}
  | DUseGpu =>
      let* v := convert s in
      Ok {| arg_input_path := arg_input_path ns;
            arg_batch_size := arg_batch_size ns;
            arg_use_gpu := v;
            arg_output_dir := arg_output_dir ns;
            arg_visualization := arg_visualization ns;
            arg_score_thresh := arg_score_thresh ns |}
  | DVisualization =>
      let* v := convert s in
      Ok {| arg_input_path := arg_input_path ns;
            arg_batch_size := arg_batch_size ns;
            arg_use_gpu := arg_use_gpu ns;
            arg_output_dir := arg_output_dir ns;
            arg_visualization := v;
            arg_score_thresh := arg_score_thresh ns |}
  | DScoreThresh =>
      let* v := convert s in
      Ok {| arg_input_path := arg_input_path ns;
            arg_batch_size := arg_batch_size ns;
            arg_use_gpu := arg_use_gpu ns;
            arg_output_dir := arg_output_dir ns;
            arg_visualization := arg_visualization ns;
            arg_score_thresh := v |}
  end.

Definition is_argument (s : string) : bool :=
  negb (String.eqb s "--") &&
  match parse_optional s with
  | TArgument => true
  | _ => false
  end.

(** [extras] tells whether an unrecognised argument was met; argparse
    reports those once everything else is parsed. *)
Fixpoint parse_known_args (argv : list string) (ns : Namespace) (extras : bool)
  : result Namespace :=
  match argv with
  | [] => if extras then Raise (SystemExit 2) else Ok ns
  | arg :: rest =>
      if String.eqb arg "--" then Raise (SystemExit 2)
      else
        match parse_optional arg with
        | TArgument => parse_known_args rest ns true
        | TUnknown => parse_known_args rest ns true
        | TAmbiguous => Raise (SystemExit 2)
        | TOption DHelp None => Raise (SystemExit 0)
        | TOption d (Some v) =>
            let* ns' := store d v ns in
            parse_known_args rest ns' extras
        | TOption d None =>
            match rest with
            | v :: rest' =>
                if is_argument v
                then let* ns' := store d v ns in
                     parse_known_args rest' ns' extras
                else Raise (SystemExit 2)
            | [] => Raise (SystemExit 2)
            end
        end
  end.

(** argparse classifies every token up to the first [--] before it acts
    on any: an ambiguous prefix among them is reported first. *)
Definition ambiguous (arg : string) : bool :=
  match parse_optional arg with
  | TAmbiguous => true
  | _ => false
  end.

Fixpoint ambiguous_token (argv : list string) : bool :=
  match argv with
  | [] => false
  | arg :: rest =>
      if String.eqb arg "--" then false
      else ambiguous arg || ambiguous_token rest
  end.

Definition parse_args (argv : list string) : result Namespace :=
  if ambiguous_token argv then Raise (SystemExit 2)
  else parse_known_args argv default_namespace false.

(** The built-in [int] on a value, which the framework's batch function
    applies to [batch_size]: a float is truncated toward zero, a string is
    parsed, [None] is a type error. *)
Definition int_of_value (v : PyVal) : result Z :=
  match v with
  | VInt z => Ok z
  | VBool b => Ok (if b then 1 else 0)%Z
  | VFloat q => Ok (Z.quot (Qnum q) (Zpos (Qden q)))
  | VStr s => py_int s
  | VNone => Raise TypeError
  end.

(** A value used as the confidence threshold: a number, or a type error
    where it would be compared. *)
Definition as_float (v : PyVal) : result Q :=
  match v with
  | VFloat q => Ok q
  | VInt z => Ok (inject_Z z)
  | VBool b => Ok (if b then 1 else 0)%Q
  | _ => Raise TypeError
  end.

(** [object_detection] called with values as they come, lines 196-207:
    [use_gpu] is tested for truth and the environment checked; only then
    is the batch reader built, which applies [int] to [batch_size] and
    refuses a result that is not positive.  [score_thresh] is only used
    inside [postprocess] (processor.py); a value that is no number is
    refused here, ahead of the inputs being read, which is no later than
    that code can meet it.  With a [batch_size] that is not an [int] the
    offsets [iter_id * batch_size] are taken at its integer value. *)
Definition object_detection_values (self : Module) (env : Environ)
  (paths : option (list PyPath)) (images : option (list Image))
  (batch_size use_gpu : PyVal) (output_dir : string)
  (score_thresh visualization : PyVal) : M (list ResultRecord) :=
  _ <- liftM (check_gpu_env env (truthy use_gpu)) ;;
  batch_size <- liftM (int_of_value batch_size) ;;
  _ <- liftM (if (batch_size <=? 0)%Z then Raise ValueError else Ok tt) ;;
  score_thresh <- liftM (as_float score_thresh) ;;
  object_detection self env paths images batch_size (truthy use_gpu)
    output_dir score_thresh (truthy visualization).

Definition run_cmd (self : Module) (env : Environ) (argvs : list string)
  : M (list ResultRecord) :=
  args <- liftM (parse_args argvs) ;;
  object_detection_values self env
    (Some [arg_input_path args])
    None
    (arg_batch_size args)
    (arg_use_gpu args)
    (arg_output_dir args)
    (arg_score_thresh args)
    (arg_visualization args).

End Facade.

(** ** [save_inference_model], module.py lines 232-253 *)

Section SaveModel.

(** The framework side: a loaded inference program, and
    [fluid.io.load_inference_model] on a directory. *)
Variable Program : Type.
Variable load_inference_model : string -> result Program.

(** What [fluid.io.save_inference_model] is called with (lines 246-253). *)
Record SaveCall : Type := {
  save_dirname : string;
  save_main_program : Program;
  save_model_filename : option string;
  save_params_filename : option string
}.

(** [default if not name else name]: [None] and the empty string are
    falsy. *)
Definition name_or (default : string) (name : option string) : option string :=
  match name with
  | None => Some default
  | Some EmptyString => Some default
  | Some (String _ _) => name
  end.

Definition save_inference_model (default_pretrained_model_path : string)
  (dirname : string) (model_filename params_filename : option string)
  (combined : bool) : result SaveCall :=
  let model_filename :=
    if combined then name_or "__model__" model_filename
    else model_filename in
  let params_filename :=
    if combined then name_or "__params__" params_filename
    else params_filename in
  let* program := load_inference_model default_pretrained_model_path in
  Ok {| save_dirname := dirname;
        save_main_program := program;
        save_model_filename := model_filename;
        save_params_filename := params_filename |}.

End SaveModel.

Arguments save_dirname {Program} _.
Arguments save_main_program {Program} _.
Arguments save_model_filename {Program} _.
Arguments save_params_filename {Program} _.

(** ** Fixtures: small concrete collaborators used to run the model *)

Module Fixture.

(** An environment in which only CUDA_VISIBLE_DEVICES may be set. *)
Definition env_cuda (v : option string) : Environ :=
  fun name => if String.eqb name "CUDA_VISIBLE_DEVICES" then v else None.

Definition labels : list string :=
  ["car"; "truck"; "bus"; "motorbike"; "tricycle"; "carplate"].

Definition street : Image :=
  {| im_height := 300; im_width := 400; im_pixels := [12; 40; 7]%Z |}.
Definition garage : Image :=
  {| im_height := 608; im_width := 1216; im_pixels := [99; 3]%Z |}.
Definition yard : Image :=
  {| im_height := 100; im_width := 50; im_pixels := []%list |}.

Definition imread (p : string) : option Image :=
  if String.eqb p "street.jpg" then Some street
  else if String.eqb p "garage.jpg" then Some garage
  else if String.eqb p "yard.jpg" then Some yard
  else None.

Definition preprocess (im : Image) : Tensor :=
  map (fun z => inject_Z z / 255)%Q (im_pixels im).

(** A mocked engine: for every image of the batch one confident car that
    overflows the canvas, one faint truck and one bus. *)
Definition rows_for (index : nat) (it : BatchItem) : list Row :=
  [ {| image_index := index; class_id := 0; row_confidence := (9 # 10)%Q;
       x1 := (-5)%Q; y1 := 10%Q; x2 := 700%Q; y2 := 304%Q |};
    {| image_index := index; class_id := 1; row_confidence := (1 # 10)%Q;
       x1 := 100%Q; y1 := 100%Q; x2 := 200%Q; y2 := 150%Q |};
    {| image_index := index; class_id := 2; row_confidence := (1 # 2)%Q;
       x1 := 304%Q; y1 := 0%Q; x2 := 608%Q; y2 := 608%Q |} ].

Fixpoint rows_from (index : nat) (feed : list BatchItem) : list Row :=
  match feed with
  | [] => []
  | it :: rest => rows_for index it ++ rows_from (S index) rest
  end.

Definition predictor_run (p : Predictor) (feed : list BatchItem) : DataOut :=
  {| im_num := List.length feed; rows := rows_from 0 feed |}.

Definition dir_writable (d : string) : bool := negb (String.eqb d "/proc/none").

Definition save_name (d : string) (k : nat) : string :=
  d ++ "/image_numpy_" ++ NilEmpty.string_of_uint (Nat.to_uint k) ++ ".jpg".

Definition base64_to_cv2 (s : string) : result Image :=
  if String.eqb s "c3RyZWV0" then Ok street
  else if String.eqb s "eWFyZA==" then Ok yard
  else Raise DecodeError.

Definition literal_eval (s : string) : result PyVal :=
  if String.eqb s "True" then Ok (VBool true)
  else if String.eqb s "False" then Ok (VBool false)
  else if String.eqb s "None" then Ok VNone
  else match py_int s with
       | Ok z => Ok (VInt z)
       | Raise _ => Raise ValueError
       end.

Definition self_cpu : Module := _initialize (env_cuda None) labels.
Definition self_gpu : Module := _initialize (env_cuda (Some "0")) labels.

Definition no_kwargs : Kwargs :=
  {| kw_paths := None; kw_batch_size := None; kw_use_gpu := None;
     kw_output_dir := None; kw_score_thresh := None;
     kw_visualization := None |}.

(** A request of three files, two per batch, on the CPU. *)
Definition three_paths : list PyPath :=
  [PStr "street.jpg"; PStr "garage.jpg"; PStr "yard.jpg"].

Definition run3 : M (list ResultRecord) :=
  object_detection imread preprocess predictor_run dir_writable save_name
    self_cpu (env_cuda None) (Some three_paths) None 2%Z false "out"
    (2 # 10)%Q true.

Definition run3_log : list Call := Eval vm_compute in fst run3.

Definition run3_res : list ResultRecord :=
  Eval vm_compute in
    match snd run3 with
    | Ok res => res
    | Raise _ => []
    end.

Definition no_record : ResultRecord := {| data := []; save_path := None |}.

Definition no_detection : Detection :=
  {| label := ""; confidence := 0%Q;
     left := 0%Q; top := 0%Q; right := 0%Q; bottom := 0%Q |}.

(** The car found in garage.jpg, input 1 of the request. *)
Definition garage_record : ResultRecord := nth 1 run3_res no_record.
Definition garage_car : Detection := hd no_detection (data garage_record).

(** A serving request of two images and a command line of one file. *)
Definition two_strings : list string := ["c3RyZWV0"; "eWFyZA=="].

Definition serve2 : M (list ResultRecord) :=
  serving_method imread preprocess predictor_run dir_writable save_name
    base64_to_cv2 self_cpu (env_cuda None) two_strings no_kwargs.

Definition serve2_log : list Call := Eval vm_compute in fst serve2.

Definition serve2_res : list ResultRecord :=
  Eval vm_compute in
    match snd serve2 with
    | Ok res => res
    | Raise _ => []
    end.

Definition street_argv : list string :=
  ["--input_path"; "street.jpg"; "--batch_size"; "4"].

Definition cmd1 : M (list ResultRecord) :=
  run_cmd imread preprocess predictor_run dir_writable save_name literal_eval
    self_cpu (env_cuda None) street_argv.

Definition cmd1_log : list Call := Eval vm_compute in fst cmd1.

Definition cmd1_res : list ResultRecord :=
  Eval vm_compute in
    match snd cmd1 with
    | Ok res => res
    | Raise _ => []
    end.

(** A model directory that holds the program 53 and nothing else. *)
Definition load_inference_model (dirname : string) : result nat :=
  if String.eqb dirname "yolov3_darknet53_vehicles_model" then Ok 53
  else Raise ValueError.

Definition export_call : SaveCall nat :=
  {| save_dirname := "export";
     save_main_program := 53;
     save_model_filename := Some "__model__";
     save_params_filename := Some "weights" |}.

(** What the reader yields for [three_paths]. *)
Definition three_items : list BatchItem :=
  [ {| image_tensor := preprocess street; im_size := (300, 400) |};
    {| image_tensor := preprocess garage; im_size := (608, 1216) |};
    {| image_tensor := preprocess yard; im_size := (100, 50) |} ].

(** A machine whose CUDA_VISIBLE_DEVICES starts with a digit and is no
    list of devices; the module is loaded and called on it. *)
Definition env_garbage : Environ := env_cuda (Some "9 garbage").
Definition self_garbage : Module := _initialize env_garbage labels.

Definition run_garbage : M (list ResultRecord) :=
  object_detection imread preprocess predictor_run dir_writable save_name
    self_garbage env_garbage (Some three_paths) None 2%Z true "out"
    (2 # 10)%Q true.

Definition run_garbage_log : list Call := Eval vm_compute in fst run_garbage.

(** A GPU request whose batch size is no number. *)
Definition gpu_none_argv : list string :=
  ["--use_gpu"; "True"; "--batch_size"; "None"].

Definition gpu_none_args : Namespace :=
  {| arg_input_path := PNone;
     arg_batch_size := VNone;
     arg_use_gpu := VBool true;
     arg_output_dir := "yolov3_vehicles_detect_output";
     arg_visualization := VBool false;
     arg_score_thresh := VFloat (2 # 10)%Q |}.

End Fixture.

(** ** Vocabulary of the statements *)

(** The predictor a call uses, if it exists. *)
Definition predictor_of (self : Module) (use_gpu : bool) : option Predictor :=
  if use_gpu then gpu_predictor self else Some (cpu_predictor self).

(** [paths if paths else list()], line 205. *)
Definition paths_or_empty (paths : option (list PyPath)) : list PyPath :=
  match paths with
  | Some l => l
  | None => []
  end.

(** Batch [j] of a request: inputs [j*batch_size], [j*batch_size+1], ... *)
Definition nth_batch {A} (batch_size j : nat) (items : list A) : list A :=
  firstn batch_size (skipn (j * batch_size) items).

(** Every batch but the last is full, and none is empty. *)
Fixpoint well_chunked {A} (batch_size : nat) (cs : list (list A)) : Prop :=
  match cs with
  | [] => True
  | c :: rest =>
      (rest <> [] -> List.length c = batch_size) /\
      1 <= List.length c <= batch_size /\
      well_chunked batch_size rest
  end.

(** The rows that survive the threshold. *)
Definition kept (score_thresh : Q) (r : Row) : bool :=
  negb (below (row_confidence r) score_thresh).

Definition drop_below (score_thresh : Q) (d : DataOut) : DataOut :=
  {| im_num := im_num d; rows := filter (kept score_thresh) (rows d) |}.

(** A value of CUDA_VISIBLE_DEVICES that lists devices: decimal indices
    separated by commas, none of them empty.  [run] counts the digits of
    the index being read.  Every other value, and an unset variable, is
    invalid. *)
Fixpoint device_indices (s : string) (run : nat) : bool :=
  match s with
  | EmptyString => 0 <? run
  | String c rest =>
      if Ascii.eqb c ","%char then (0 <? run) && device_indices rest 0
      else is_digit c && device_indices rest (S run)
  end.

Definition spec_valid_devices (v : option string) : bool :=
  match v with
  | Some s => device_indices s 0
  | None => false
  end.

(** An argument list selects option [d] when one of its tokens resolves
    to it. *)
Definition selects (d : Dest) (argv : list string) : Prop :=
  exists tok e, In tok argv /\ parse_optional tok = TOption d e.

Definition same_field (d : Dest) (a b : Namespace) : Prop :=
  match d with
  | DHelp => True
  | DUseGpu => arg_use_gpu a = arg_use_gpu b
  | DOutputDir => arg_output_dir a = arg_output_dir b
  | DVisualization => arg_visualization a = arg_visualization b
  | DInputPath => arg_input_path a = arg_input_path b
  | DBatchSize => arg_batch_size a = arg_batch_size b
  | DScoreThresh => arg_score_thresh a = arg_score_thresh b
  end.

(** ** The GPU environment check *)

Lemma py_int_one_char (c : ascii) :
  (exists z, py_int (String c EmptyString) = Ok z) <-> is_digit c = true.
Proof.
  destruct c as [[] [] [] [] [] [] [] []]; vm_compute; split; intro H;
    try reflexivity; try discriminate;
    try (now destruct H);
    eexists; reflexivity.
Qed.

Lemma probe_ok_iff (env : Environ) :
  (exists z, cuda_places_probe env = Ok z) <->
  (exists c rest, env "CUDA_VISIBLE_DEVICES" = Some (String c rest) /\
                  is_digit c = true).
Proof.
  unfold cuda_places_probe, environ_get.
  destruct (env "CUDA_VISIBLE_DEVICES") as [[|c rest]|] eqn:E; cbn.
  - split; [intros [z H]; discriminate | intros (c & rest & H & _); discriminate].
  - rewrite py_int_one_char. split.
    + intros H. exists c, rest. auto.
    + intros (c' & rest' & H & D). injection H as -> ->. exact D.
  - split; [intros [z H]; discriminate | intros (c & rest & H & _); discriminate].
Qed.

Lemma check_gpu_env_cases (env : Environ) (use_gpu : bool) :
  check_gpu_env env use_gpu = Ok tt \/
  check_gpu_env env use_gpu = Raise RuntimeError.
Proof.
  unfold check_gpu_env. destruct use_gpu; [|now left].
  destruct (cuda_places_probe env); [now left | now right].
Qed.

Lemma check_gpu_env_ok_iff (env : Environ) :
  check_gpu_env env true = Ok tt <-> exists z, cuda_places_probe env = Ok z.
Proof.
  unfold check_gpu_env. destruct (cuda_places_probe env) as [z|e]; split.
  - intros _. now exists z.
  - reflexivity.
  - discriminate.
  - intros [z H]. discriminate.
Qed.

(** ** General facts: the monads, [mapR], list positions *)

#[local] Arguments bindR : simpl never.
#[local] Arguments bindM : simpl never.
#[local] Arguments liftM : simpl never.

Lemma bindR_ok {A B} (c : result A) (k : A -> result B) (b : B) :
  bindR c k = Ok b -> exists a, c = Ok a /\ k a = Ok b.
Proof.
  destruct c as [a|e]; unfold bindR; [|discriminate]. intros H. now exists a.
Qed.

Lemma bindM_ok {A B} (c : M A) (k : A -> M B) (log : list Call) (b : B) :
  bindM c k = (log, Ok b) ->
  exists l1 a l2, c = (l1, Ok a) /\ k a = (l2, Ok b) /\ log = l1 ++ l2.
Proof.
  destruct c as [l1 [a|e]]; unfold bindM; [|discriminate].
  destruct (k a) as [l2 r] eqn:K. intros H. injection H as <- ->.
  now exists l1, a, l2.
Qed.

Lemma bindM_liftM_ok {A B} (a : A) (k : A -> M B) :
  bindM (liftM (Ok a)) k = k a.
Proof.
  unfold bindM, liftM. now destruct (k a) as [l r].
Qed.

Lemma liftM_ok {A} (r : result A) (log : list Call) (a : A) :
  liftM r = (log, Ok a) -> r = Ok a /\ log = [].
Proof.
  unfold liftM. intros H. injection H as <- ->. auto.
Qed.

Lemma mapR_Forall2 {A B} (f : A -> result B) (l : list A) (ys : list B) :
  mapR f l = Ok ys -> Forall2 (fun x y => f x = Ok y) l ys.
Proof.
  revert ys. induction l as [|x l IH]; cbn; intros ys H.
  - injection H as <-. constructor.
  - apply bindR_ok in H. destruct H as (y & Hy & H).
    apply bindR_ok in H. destruct H as (ys' & Hys & H).
    injection H as <-. constructor; auto.
Qed.

Lemma mapR_ext {A B} (f g : A -> result B) (l : list A) :
  (forall x, In x l -> f x = g x) -> mapR f l = mapR g l.
Proof.
  induction l as [|x l IH]; cbn; intros H; [reflexivity|].
  rewrite (H x) by now left. rewrite IH; [reflexivity|].
  intros y Hy. apply H. now right.
Qed.

Lemma Forall2_nth_l {A B} (R : A -> B -> Prop) (l : list A) (ys : list B)
  (i : nat) (x : A) :
  Forall2 R l ys -> nth_error l i = Some x ->
  exists y, nth_error ys i = Some y /\ R x y.
Proof.
  intros F. revert i. induction F as [|a b l ys Hab F IH]; intros [|i]; cbn;
    try discriminate.
  - intros H. injection H as <-. now exists b.
  - apply IH.
Qed.

Lemma Forall2_In_r {A B} (R : A -> B -> Prop) (l : list A) (ys : list B) (y : B) :
  Forall2 R l ys -> In y ys -> exists x, In x l /\ R x y.
Proof.
  induction 1 as [|a b l ys Hab F IH]; cbn; [tauto|].
  intros [<-|H].
  - exists a. auto.
  - destruct (IH H) as (x & Hx & Hr). exists x. auto.
Qed.

Lemma nth_error_seq (n i : nat) :
  i < n -> nth_error (seq 0 n) i = Some i.
Proof.
  intros H. rewrite nth_error_nth' with (d := 0) by now rewrite length_seq.
  now rewrite seq_nth.
Qed.

(** ** Batching *)

Section Batching.

Context {A : Type}.
Variable batch_size : nat.
Hypothesis batch_size_pos : 0 < batch_size.

(** When every read succeeds the batches partition the inputs in order,
    all of them full except possibly the last. *)
Lemma batch_reader_chunks (xs b : list A) :
  List.length b < batch_size ->
  exists cs, batch_reader batch_size (map Ok xs) b = map Ok cs /\
             List.concat cs = b ++ xs /\
             well_chunked batch_size cs.
Proof.
  revert b. induction xs as [|x xs IH]; intros b Hb; cbn.
  - destruct b as [|y b].
    + exists []. cbn. auto.
    + exists [y :: b]. cbn in *. rewrite !app_nil_r.
      repeat split; try reflexivity; try lia. intros H. now elim H.
  - destruct (Nat.eqb_spec (List.length (b ++ [x])) batch_size) as [E|E].
    + destruct (IH [] batch_size_pos) as (cs & H1 & H2 & H3).
      exists ((b ++ [x]) :: cs). cbn. rewrite H1, H2. cbn.
      rewrite <- app_assoc. cbn. repeat split; auto; lia.
    + rewrite length_app in E. cbn in E.
      destruct (IH (b ++ [x])) as (cs & H1 & H2 & H3).
      { rewrite length_app. cbn. lia. }
      exists cs. rewrite H1, H2, <- app_assoc. cbn. auto.
Qed.

Lemma well_chunked_nth (cs : list (list A)) (j : nat) (c : list A) :
  well_chunked batch_size cs -> nth_error cs j = Some c ->
  c = nth_batch batch_size j (List.concat cs).
Proof.
  unfold nth_batch. revert j. induction cs as [|c0 rest IH]; intros j W H.
  - destruct j; discriminate.
  - destruct W as (Wfull & Wlen & Wrest). destruct j as [|j]; cbn in H |- *.
    + injection H as ->. destruct rest as [|c1 rest].
      * cbn. rewrite app_nil_r. symmetry. apply firstn_all2. lia.
      * assert (L : List.length c = batch_size) by (apply Wfull; discriminate).
        rewrite firstn_app, L, Nat.sub_diag, firstn_O, app_nil_r.
        symmetry. apply firstn_all2. lia.
    + assert (L : List.length c0 = batch_size).
      { apply Wfull. destruct rest; [destruct j; discriminate | discriminate]. }
      rewrite skipn_app, L.
      rewrite (skipn_all2 c0) by lia. cbn.
      replace (batch_size + j * batch_size - batch_size) with (j * batch_size) by lia.
      now apply IH.
Qed.

Lemma well_chunked_position (cs : list (list A)) (j i : nat) :
  well_chunked batch_size cs ->
  j * batch_size + i < List.length (List.concat cs) -> i < batch_size ->
  exists c, nth_error cs j = Some c /\ i < List.length c.
Proof.
  revert j. induction cs as [|c0 rest IH]; intros j W H Hi; cbn in H; [lia|].
  destruct W as (Wfull & Wlen & Wrest). rewrite length_app in H.
  destruct j as [|j]; cbn.
  - exists c0. split; [reflexivity|]. destruct rest as [|c1 rest].
    + cbn in H. lia.
    + rewrite Wfull by discriminate. exact Hi.
  - apply IH; auto. cbn in H. lia.
Qed.

End Batching.

(** ** The pipeline *)

Section Properties.

Variable imread : string -> option Image.
Variable preprocess : Image -> Tensor.
Variable predictor_run : Predictor -> list BatchItem -> DataOut.
Variable dir_writable : string -> bool.
Variable save_name : string -> nat -> string.
Variable base64_to_cv2 : string -> result Image.
Variable literal_eval : string -> result PyVal.

Local Abbreviation load := (load_image imread).
Local Abbreviation read := (reader imread preprocess).
Local Abbreviation record := (image_record imread save_name).
Local Abbreviation post := (postprocess imread dir_writable save_name).
Local Abbreviation loop :=
  (detect_batches imread predictor_run dir_writable save_name).
Local Abbreviation detect :=
  (object_detection imread preprocess predictor_run dir_writable save_name).

(** *** Postprocessing of one image *)

Lemma kept_threshold (score_thresh : Q) (r : Row) :
  kept score_thresh r = true -> (score_thresh <= row_confidence r)%Q.
Proof.
  unfold kept, below. rewrite negb_involutive. apply Qle_bool_imp_le.
Qed.

Lemma detections_Forall2 labels im score_thresh rs ds :
  detections labels im score_thresh rs = Ok ds ->
  Forall2 (fun r d => to_detection labels im r = Ok d)
          (filter (kept score_thresh) rs) ds.
Proof.
  revert ds. induction rs as [|r rs IH]; cbn; intros ds H.
  - injection H as <-. constructor.
  - unfold kept at 1.
    destruct (below (row_confidence r) score_thresh); cbn.
    + now apply IH.
    + apply bindR_ok in H. destruct H as (d & Hd & H).
      apply bindR_ok in H. destruct H as (ds' & Hds & H).
      injection H as <-. constructor; auto.
Qed.

Lemma detections_filter labels im score_thresh rs :
  detections labels im score_thresh (filter (kept score_thresh) rs) =
  detections labels im score_thresh rs.
Proof.
  induction rs as [|r rs IH]; cbn; [reflexivity|].
  unfold kept at 1.
  destruct (below (row_confidence r) score_thresh) eqn:B; cbn.
  - exact IH.
  - rewrite B, IH. reflexivity.
Qed.

Lemma group_rows_filter (f : Row -> bool) (index : nat) (rs : list Row) :
  group_rows index (filter f rs) = filter f (group_rows index rs).
Proof.
  unfold group_rows. induction rs as [|r rs IH]; cbn; [reflexivity|].
  destruct (f r) eqn:F, (image_index r =? index) eqn:G; cbn;
    rewrite ?F, ?G, IH; reflexivity.
Qed.

Lemma to_detection_fields labels im r d :
  to_detection labels im r = Ok d ->
  confidence d = row_confidence r /\
  left d = clip_x im (rescale_x im (x1 r)) /\
  top d = clip_y im (rescale_y im (y1 r)) /\
  right d = clip_x im (rescale_x im (x2 r)) /\
  bottom d = clip_y im (rescale_y im (y2 r)) /\
  label_of labels (class_id r) = Ok (label d).
Proof.
  unfold to_detection. intros H. apply bindR_ok in H.
  destruct H as (l & Hl & H). injection H as <-.
  cbn [confidence left top right bottom label].
  repeat split; try reflexivity. exact Hl.
Qed.

Lemma image_record_ok paths images d score_thresh labels output_dir handle_id
  visualization index rec :
  record paths images d score_thresh labels output_dir handle_id
    visualization index = Ok rec ->
  exists src im,
    nth_error (live_source paths images) (handle_id + index) = Some src /\
    load src = Ok im /\
    detections labels im score_thresh (group_rows index (rows d)) = Ok (data rec) /\
    save_path rec = (if visualization
                     then Some (save_name output_dir (handle_id + index))
                     else None).
Proof.
  unfold image_record. intros H.
  apply bindR_ok in H. destruct H as (src & Hsrc & H).
  apply bindR_ok in H. destruct H as (im & Him & H).
  apply bindR_ok in H. destruct H as (dets & Hdets & H).
  injection H as <-. exists src, im. cbn.
  destruct (nth_error (live_source paths images) (handle_id + index));
    [|discriminate].
  injection Hsrc as ->. auto.
Qed.

Lemma postprocess_ok paths images d score_thresh labels output_dir handle_id
  visualization out :
  post paths images d score_thresh labels output_dir handle_id visualization
    = Ok out ->
  Forall2 (fun index rec =>
             record paths images d score_thresh labels output_dir handle_id
               visualization index = Ok rec)
          (seq 0 (im_num d)) out.
Proof.
  unfold postprocess.
  destruct (visualization && negb (dir_writable output_dir)); [discriminate|].
  apply mapR_Forall2.
Qed.

(** *** The batch loop *)

Lemma run_predictor_ok self use_gpu feed log d :
  run_predictor predictor_run self use_gpu feed = (log, Ok d) ->
  exists p, predictor_of self use_gpu = Some p /\
            log = [(p, feed)] /\ d = predictor_run p feed.
Proof.
  unfold run_predictor, predictor_of. destruct use_gpu.
  - destruct (gpu_predictor self) as [p|]; [|discriminate].
    intros H. injection H as <- <-. now exists p.
  - intros H. injection H as <- <-. now exists (cpu_predictor self).
Qed.

Section Loop.

Variable self : Module.
Variable paths : list PyPath.
Variable images : option (list Image).
Variable batch_size : nat.
Variable use_gpu : bool.
Variable output_dir : string.
Variable score_thresh : Q.
Variable visualization : bool.

Local Abbreviation loop' :=
  (loop self paths images batch_size use_gpu output_dir score_thresh
     visualization).
Local Abbreviation record' d h :=
  (record paths images d score_thresh (label_names self) output_dir h
     visualization).

(** A run that returns has read every input. *)
Lemma loop_reads_all (r : list (result BatchItem)) :
  forall b res iter_id log out,
    loop' res iter_id (batch_reader batch_size r b) = (log, Ok out) ->
    exists xs, r = map Ok xs.
Proof.
  induction r as [|[x|e] r IH]; intros b res iter_id log out H.
  - now exists [].
  - cbn in H. destruct (List.length (b ++ [x]) =? batch_size).
    + cbn in H. apply bindM_ok in H. destruct H as (l1 & d & l2 & _ & H & _).
      apply bindM_ok in H. destruct H as (l3 & o & l4 & _ & H & _).
      apply IH in H. destruct H as (xs & ->). now exists (x :: xs).
    + apply IH in H. destruct H as (xs & ->). now exists (x :: xs).
  - cbn in H. discriminate.
Qed.

(** Every record of a run was computed by [postprocess] from the output
    of a logged engine call. *)
Lemma loop_origin (batches : list (result (list BatchItem))) :
  forall res iter_id log out,
    loop' res iter_id batches = (log, Ok out) ->
    forall rec, In rec out ->
      In rec res \/
      exists p feed h index,
        In (p, feed) log /\
        record' (predictor_run p feed) h index = Ok rec.
Proof.
  induction batches as [|[c|e] rest IH]; intros res iter_id log out H rec Hin;
    cbn in H.
  - injection H as <- <-. now left.
  - apply bindM_ok in H. destruct H as (l1 & d & l2 & Hrun & H & ->).
    apply run_predictor_ok in Hrun. destruct Hrun as (p & Hp & -> & ->).
    apply bindM_ok in H. destruct H as (l3 & output & l4 & Hpost & H & ->).
    apply liftM_ok in Hpost. destruct Hpost as (Hpost & ->).
    destruct (IH _ _ _ _ H rec Hin) as [Hres | (p' & feed & h & i & Hlog & Hrec)].
    + apply in_app_or in Hres. destruct Hres as [Hres | Hout]; [now left|].
      right. apply postprocess_ok in Hpost.
      destruct (Forall2_In_r _ _ _ _ Hpost Hout) as (i & _ & Hi).
      exists p, c, (iter_id * batch_size), i. split; [now left | exact Hi].
    + right. exists p', feed, h, i. split; [now right | exact Hrec].
  - discriminate.
Qed.

(** The engine reports one group of rows per image it was given. *)
Hypothesis engine_per_image :
  forall p feed, im_num (predictor_run p feed) = List.length feed.

(** With full batches the record of image [i] of batch [j] lands at
    position [j * batch_size + i], and is computed with the offset
    [handle_id = (iter_id + j) * batch_size]. *)
Lemma loop_aligned (cs : list (list BatchItem)) :
  forall res iter_id log out,
    well_chunked batch_size cs ->
    loop' res iter_id (map Ok cs) = (log, Ok out) ->
    exists tail,
      out = res ++ tail /\
      List.length tail = List.length (List.concat cs) /\
      forall j feed i,
        nth_error cs j = Some feed -> i < List.length feed ->
        exists p rec,
          predictor_of self use_gpu = Some p /\
          In (p, feed) log /\
          nth_error tail (j * batch_size + i) = Some rec /\
          record' (predictor_run p feed) ((iter_id + j) * batch_size) i = Ok rec.
Proof.
  induction cs as [|c rest IH]; intros res iter_id log out W H; cbn in H.
  - injection H as <- <-. exists []. rewrite app_nil_r.
    repeat split; auto. intros [|j] feed i Hj; discriminate.
  - destruct W as (Wfull & Wlen & Wrest).
    apply bindM_ok in H. destruct H as (l1 & d & l2 & Hrun & H & ->).
    apply run_predictor_ok in Hrun. destruct Hrun as (p & Hp & -> & ->).
    apply bindM_ok in H. destruct H as (l3 & output & l4 & Hpost & H & ->).
    apply liftM_ok in Hpost. destruct Hpost as (Hpost & ->).
    apply IH in H; [|exact Wrest]. destruct H as (tail & -> & Hlen & Htail).
    apply postprocess_ok in Hpost.
    assert (Lout : List.length output = List.length c).
    { apply Forall2_length in Hpost. rewrite length_seq in Hpost.
      rewrite <- Hpost. apply engine_per_image. }
    exists (output ++ tail). split; [now rewrite app_assoc|]. split.
    + cbn. rewrite !length_app. lia.
    + intros j feed i Hj Hi. destruct j as [|j]; cbn in Hj.
      * injection Hj as <-.
        destruct (Forall2_nth_l _ _ _ i i Hpost) as (rec & Hrec & Hir).
        { apply nth_error_seq. now rewrite engine_per_image. }
        exists p, rec. repeat split; auto.
        -- now left.
        -- cbn. rewrite nth_error_app1 by lia. exact Hrec.
        -- now rewrite Nat.add_0_r.
      * assert (L : List.length c = batch_size).
        { apply Wfull. intros ->. destruct j; discriminate. }
        destruct (Htail j feed i Hj Hi) as (p' & rec & Hp' & Hin & Hn & Hir).
        exists p', rec. repeat split; auto.
        -- now right.
        -- rewrite nth_error_app2 by lia.
           replace (S j * batch_size + i - List.length output)
             with (j * batch_size + i) by lia.
           exact Hn.
        -- replace (iter_id + S j) with (S iter_id + j) by lia. exact Hir.
Qed.

End Loop.

(** *** [object_detection] as a whole *)

Lemma detect_ok_inv self env paths images batch_size use_gpu output_dir
  score_thresh visualization log res :
  detect self env paths images batch_size use_gpu output_dir score_thresh
    visualization = (log, Ok res) ->
  check_gpu_env env use_gpu = Ok tt /\
  (0 < batch_size)%Z /\
  loop self (paths_or_empty paths) images (Z.to_nat batch_size) use_gpu
    output_dir score_thresh visualization [] 0
    (batch_reader (Z.to_nat batch_size)
       (read (paths_or_empty paths) images) []) = (log, Ok res).
Proof.
  unfold object_detection. intros H.
  apply bindM_ok in H. destruct H as (l1 & u & l2 & Hc & H & ->).
  apply liftM_ok in Hc. destruct Hc as (Hc & ->). destruct u.
  apply bindM_ok in H. destruct H as (l3 & bs & l4 & Hb & H & ->).
  apply liftM_ok in Hb. destruct Hb as (Hb & ->).
  unfold batch in Hb. destruct (Z.leb_spec batch_size 0); [discriminate|].
  injection Hb as <-. auto.
Qed.

Lemma read_length paths images items :
  read paths images = map Ok items ->
  List.length items = List.length (live_source paths images).
Proof.
  unfold reader. intros H. apply (f_equal (@List.length _)) in H.
  now rewrite !length_map in H.
Qed.

Section Aligned.

Hypothesis engine_per_image :
  forall p feed, im_num (predictor_run p feed) = List.length feed.

(** The shape of every successful call: all inputs were read, and the
    record of input [j * batch_size + i] is the one [postprocess] computed
    for image [i] of batch [j], called with [handle_id = j * batch_size]. *)
Lemma detect_aligned self env paths images batch_size use_gpu output_dir
  score_thresh visualization log res :
  detect self env paths images batch_size use_gpu output_dir score_thresh
    visualization = (log, Ok res) ->
  let bs := Z.to_nat batch_size in
  exists items,
    read (paths_or_empty paths) images = map Ok items /\
    0 < bs /\
    List.length res = List.length items /\
    forall j i,
      i < bs -> j * bs + i < List.length items ->
      exists p rec,
        predictor_of self use_gpu = Some p /\
        In (p, nth_batch bs j items) log /\
        nth_error res (j * bs + i) = Some rec /\
        record (paths_or_empty paths) images
          (predictor_run p (nth_batch bs j items)) score_thresh
          (label_names self) output_dir (j * bs) visualization i = Ok rec.
Proof.
  intros H bs. apply detect_ok_inv in H. destruct H as (_ & Hbs & H).
  assert (Hpos : 0 < bs) by (unfold bs; lia). fold bs in H.
  destruct (loop_reads_all _ _ _ _ _ _ _ _ _ _ _ _ _ _ H) as (items & Hitems).
  exists items. split; [exact Hitems|]. split; [exact Hpos|].
  rewrite Hitems in H.
  destruct (batch_reader_chunks bs Hpos items []) as (cs & Hcs & Hcat & W);
    [exact Hpos|].
  cbn in Hcat. rewrite Hcs in H.
  apply (loop_aligned _ _ _ _ _ _ _ _ engine_per_image) in H; [|exact W].
  destruct H as (tail & -> & Hlen & Htail). cbn [app].
  split; [now rewrite Hlen, Hcat|].
  intros j i Hi Hji. rewrite <- Hcat in Hji.
  destruct (well_chunked_position bs Hpos cs j i W Hji Hi) as (c & Hc & Hic).
  pose proof (well_chunked_nth bs Hpos cs j c W Hc) as Ec. rewrite Hcat in Ec.
  destruct (Htail j c i Hc Hic) as (p & rec & Hp & Hin & Hn & Hr).
  exists p, rec. rewrite <- Ec. cbn in Hr. auto.
Qed.

(** The record at position [k] of the result belongs to input [k]. *)
Lemma record_at self env paths images batch_size use_gpu output_dir
  score_thresh visualization log res :
  detect self env paths images batch_size use_gpu output_dir score_thresh
    visualization = (log, Ok res) ->
  let inputs := live_source (paths_or_empty paths) images in
  List.length res = List.length inputs /\
  forall k src,
    nth_error inputs k = Some src ->
    exists rec im p feed i,
      nth_error res k = Some rec /\
      load src = Ok im /\
      In (p, feed) log /\
      save_path rec = (if visualization
                       then Some (save_name output_dir k) else None) /\
      detections (label_names self) im score_thresh
        (group_rows i (rows (predictor_run p feed))) = Ok (data rec).
Proof.
  intros H inputs. apply detect_aligned in H. cbn zeta in H.
  set (bs := Z.to_nat batch_size) in *.
  destruct H as (items & Hitems & Hpos & Hlen & Hall).
  pose proof (read_length _ _ _ Hitems) as Hn. fold inputs in Hn.
  split; [congruence|].
  intros k src Hk.
  assert (Hkn : k < List.length items).
  { rewrite Hn. apply nth_error_Some. congruence. }
  assert (Ek : k = (k / bs) * bs + k mod bs).
  { rewrite Nat.mul_comm. apply Nat.div_mod_eq. }
  destruct (Hall (k / bs) (k mod bs)) as (p & rec & Hp & Hin & Hrec & Hr).
  { apply Nat.mod_upper_bound. lia. }
  { now rewrite <- Ek. }
  rewrite <- Ek in Hrec.
  apply image_record_ok in Hr.
  destruct Hr as (src' & im & Hsrc & Him & Hdets & Hsave).
  rewrite <- Ek in Hsrc, Hsave. fold inputs in Hsrc.
  assert (src' = src) by congruence. subst src'.
  exists rec, im, p, (nth_batch bs (k / bs) items), (k mod bs).
  repeat split; auto.
Qed.

(** The row loop is a comprehension over the rows that pass the
    threshold. *)
Lemma detections_mapR labels im score_thresh rs :
  detections labels im score_thresh rs =
  mapR (to_detection labels im) (filter (kept score_thresh) rs).
Proof.
  induction rs as [|r rs IH]; cbn [detections filter]; [reflexivity|].
  unfold kept at 1.
  destruct (below (row_confidence r) score_thresh); cbn [negb].
  - exact IH.
  - cbn [mapR]. now rewrite IH.
Qed.

(** C1.  A call that returns gives one record per input, in input order.
    Record [k] belongs to input [k]: that image went to the engine as item
    [k mod batch_size] of batch [k / batch_size], on the predictor the
    call selected; the record's detections are exactly the rows the
    engine returned for that item of that batch which pass the threshold,
    in the engine's order, each clipped to image [k]; its file is named
    after [k]. *)
Theorem one_record_per_input self env paths images batch_size use_gpu
  output_dir score_thresh visualization log res :
  detect self env paths images batch_size use_gpu output_dir score_thresh
    visualization = (log, Ok res) ->
  let bs := Z.to_nat batch_size in
  let inputs := live_source (paths_or_empty paths) images in
  List.length res = List.length inputs /\
  exists items,
    read (paths_or_empty paths) images = map Ok items /\
    forall k src,
      nth_error inputs k = Some src ->
      exists rec im p,
        nth_error res k = Some rec /\
        load src = Ok im /\
        nth_error items k =
          Some {| image_tensor := preprocess im;
                  im_size := (im_height im, im_width im) |} /\
        predictor_of self use_gpu = Some p /\
        In (p, nth_batch bs (k / bs) items) log /\
        save_path rec = (if visualization
                         then Some (save_name output_dir k) else None) /\
        mapR (to_detection (label_names self) im)
          (filter (kept score_thresh)
             (group_rows (k mod bs)
                (rows (predictor_run p (nth_batch bs (k / bs) items)))))
        = Ok (data rec).
Proof.
  intros H bs inputs. apply detect_aligned in H. cbn zeta in H. fold bs in H.
  destruct H as (items & Hitems & Hpos & Hlen & Hall).
  pose proof (read_length _ _ _ Hitems) as Hn. fold inputs in Hn.
  split; [congruence|]. exists items. split; [exact Hitems|].
  intros k src Hk.
  assert (Hkn : k < List.length items).
  { rewrite Hn. apply nth_error_Some. congruence. }
  assert (Ek : k = (k / bs) * bs + k mod bs).
  { rewrite Nat.mul_comm. apply Nat.div_mod_eq. }
  destruct (Hall (k / bs) (k mod bs)) as (p & rec & Hp & Hin & Hrec & Hr).
  { apply Nat.mod_upper_bound. lia. }
  { now rewrite <- Ek. }
  rewrite <- Ek in Hrec.
  apply image_record_ok in Hr.
  destruct Hr as (src' & im & Hsrc & Him & Hdets & Hsave).
  rewrite <- Ek in Hsrc, Hsave. fold inputs in Hsrc.
  assert (src' = src) by congruence. subst src'.
  exists rec, im, p. repeat split; auto.
  - assert (E : nth_error (read (paths_or_empty paths) images) k =
                nth_error (map Ok items) k) by now rewrite Hitems.
    unfold reader in E. fold inputs in E.
    rewrite !nth_error_map, Hk in E. cbn [option_map] in E.
    rewrite Him in E. unfold bindR in E.
    destruct (nth_error items k) as [it|]; [|discriminate].
    cbn in E. now injection E as <-.
  - now rewrite <- detections_mapR.
Qed.

(** C6.  Across batches the offset is [handle_id = j * batch_size] for
    batch [j]: the rows the engine returned for image [i] of batch [j]
    make the record of input [j * batch_size + i] of the request. *)
Theorem rows_attributed_by_batch_offset self env paths images batch_size
  use_gpu output_dir score_thresh visualization log res :
  detect self env paths images batch_size use_gpu output_dir score_thresh
    visualization = (log, Ok res) ->
  let bs := Z.to_nat batch_size in
  let inputs := live_source (paths_or_empty paths) images in
  exists items,
    read (paths_or_empty paths) images = map Ok items /\
    forall j i,
      i < bs -> j * bs + i < List.length inputs ->
      exists p rec src im,
        predictor_of self use_gpu = Some p /\
        In (p, nth_batch bs j items) log /\
        record (paths_or_empty paths) images
          (predictor_run p (nth_batch bs j items)) score_thresh
          (label_names self) output_dir (j * bs) visualization i = Ok rec /\
        nth_error res (j * bs + i) = Some rec /\
        nth_error inputs (j * bs + i) = Some src /\
        load src = Ok im /\
        detections (label_names self) im score_thresh
          (group_rows i (rows (predictor_run p (nth_batch bs j items))))
        = Ok (data rec).
Proof.
  intros H bs inputs. apply detect_aligned in H. cbn zeta in H. fold bs in H.
  destruct H as (items & Hitems & Hpos & Hlen & Hall).
  exists items. split; [exact Hitems|].
  pose proof (read_length _ _ _ Hitems) as Hn. fold inputs in Hn.
  intros j i Hi Hji. rewrite <- Hn in Hji.
  destruct (Hall j i Hi Hji) as (p & rec & Hp & Hin & Hrec & Hr).
  destruct (image_record_ok _ _ _ _ _ _ _ _ _ _ Hr)
    as (src & im & Hsrc & Him & Hdets & _).
  exists p, rec, src, im. repeat split; auto.
Qed.

End Aligned.

(** *** Boxes *)

Lemma inject_nat_nonneg (n : nat) : (0 <= inject_Z (Z.of_nat n))%Q.
Proof.
  unfold Qle. cbn. lia.
Qed.

Lemma scale_nonneg (n : nat) : (0 <= inject_Z (Z.of_nat n) / canvas)%Q.
Proof.
  apply Qle_shift_div_l; [reflexivity|].
  rewrite Qmult_0_l. apply inject_nat_nonneg.
Qed.

Lemma clip_bounds (lo hi x : Q) :
  (lo <= hi)%Q -> (lo <= clip lo hi x /\ clip lo hi x <= hi)%Q.
Proof.
  intros H. unfold clip. split.
  - apply Q.le_max_l.
  - apply Q.max_lub; [exact H | apply Q.le_min_r].
Qed.

Lemma clip_mono (lo hi x y : Q) :
  (x <= y)%Q -> (clip lo hi x <= clip lo hi y)%Q.
Proof.
  intros H. unfold clip.
  apply Q.max_le_compat_l, Q.min_le_compat_r, H.
Qed.

Lemma clip_rescale_x_mono (im : Image) (x y : Q) :
  (x <= y)%Q ->
  (clip_x im (rescale_x im x) <= clip_x im (rescale_x im y))%Q.
Proof.
  intros H. apply clip_mono. unfold rescale_x.
  apply Qmult_le_compat_r; [exact H | apply scale_nonneg].
Qed.

Lemma clip_rescale_y_mono (im : Image) (x y : Q) :
  (x <= y)%Q ->
  (clip_y im (rescale_y im x) <= clip_y im (rescale_y im y))%Q.
Proof.
  intros H. apply clip_mono. unfold rescale_y.
  apply Qmult_le_compat_r; [exact H | apply scale_nonneg].
Qed.

(** The per-axis factor of step 4 is undone by its reciprocal, exactly,
    for an image that has pixels. *)
Lemma rescale_x_undone (im : Image) (x : Q) :
  0 < im_width im ->
  (rescale_x im x * (canvas / inject_Z (Z.of_nat (im_width im))) == x)%Q.
Proof.
  intros H. unfold rescale_x, canvas.
  assert (W : ~ (inject_Z (Z.of_nat (im_width im)) == 0)%Q).
  { unfold Qeq. cbn. lia. }
  field. exact W.
Qed.

Lemma rescale_y_undone (im : Image) (y : Q) :
  0 < im_height im ->
  (rescale_y im y * (canvas / inject_Z (Z.of_nat (im_height im))) == y)%Q.
Proof.
  intros H. unfold rescale_y, canvas.
  assert (W : ~ (inject_Z (Z.of_nat (im_height im)) == 0)%Q).
  { unfold Qeq. cbn. lia. }
  field. exact W.
Qed.

Lemma detection_row labels im score_thresh rs ds d :
  detections labels im score_thresh rs = Ok ds -> In d ds ->
  exists r, In r rs /\ kept score_thresh r = true /\
            to_detection labels im r = Ok d.
Proof.
  intros H Hd. apply detections_Forall2 in H.
  destruct (Forall2_In_r _ _ _ _ H Hd) as (r & Hr & Hrd).
  apply filter_In in Hr. destruct Hr as (Hr & Hk). now exists r.
Qed.

Section Boxes.

Hypothesis engine_per_image :
  forall p feed, im_num (predictor_run p feed) = List.length feed.

(** C3.  Every returned box is clipped to the image it belongs to:
    [0 <= left, right <= width] and [0 <= top, bottom <= height] of input
    [k] for the detections of record [k].  Rescaling and clipping keep the
    order of the corners, so [left <= right] and [top <= bottom] for
    every row the engine emits with [x1 <= x2] and [y1 <= y2]. *)
Theorem boxes_within_image self env paths images batch_size use_gpu
  output_dir score_thresh visualization log res :
  detect self env paths images batch_size use_gpu output_dir score_thresh
    visualization = (log, Ok res) ->
  (forall p feed r,
      In (p, feed) log -> In r (rows (predictor_run p feed)) ->
      (x1 r <= x2 r)%Q /\ (y1 r <= y2 r)%Q) ->
  forall k rec src im d,
    nth_error res k = Some rec ->
    nth_error (live_source (paths_or_empty paths) images) k = Some src ->
    load src = Ok im ->
    In d (data rec) ->
    let w := inject_Z (Z.of_nat (im_width im)) in
    let h := inject_Z (Z.of_nat (im_height im)) in
    (0 <= left d /\ left d <= w)%Q /\
    (0 <= right d /\ right d <= w)%Q /\
    (0 <= top d /\ top d <= h)%Q /\
    (0 <= bottom d /\ bottom d <= h)%Q /\
    (left d <= right d)%Q /\
    (top d <= bottom d)%Q.
Proof.
  intros H Hord k rec src im d Hrec Hsrc Him Hd w h.
  apply (record_at engine_per_image) in H. destruct H as (_ & Hall).
  destruct (Hall k src Hsrc)
    as (rec' & im' & p & feed & i & H1 & H2 & H3 & _ & H5).
  assert (rec' = rec) by congruence. assert (im' = im) by congruence.
  subst rec' im'.
  destruct (detection_row _ _ _ _ _ _ H5 Hd) as (r & Hr & _ & Hrd).
  apply filter_In in Hr. destruct Hr as (Hr & _).
  destruct (Hord p feed r H3 Hr) as (Hx & Hy).
  apply to_detection_fields in Hrd.
  destruct Hrd as (_ & -> & -> & -> & -> & _).
  repeat split;
    try (apply clip_bounds; apply inject_nat_nonneg).
  - now apply clip_rescale_x_mono.
  - now apply clip_rescale_y_mono.
Qed.

End Boxes.

(** *** Confidence *)

Lemma postprocess_drop_below paths images d score_thresh labels output_dir
  handle_id visualization :
  post paths images (drop_below score_thresh d) score_thresh labels
    output_dir handle_id visualization =
  post paths images d score_thresh labels output_dir handle_id visualization.
Proof.
  unfold postprocess. cbn [im_num drop_below].
  destruct (visualization && negb (dir_writable output_dir)); [reflexivity|].
  apply mapR_ext. intros index _. unfold image_record, bindR.
  cbn [rows drop_below].
  destruct (nth_error (live_source paths images) (handle_id + index))
    as [src|]; [|reflexivity].
  destruct (load src) as [im|e]; [|reflexivity].
  now rewrite group_rows_filter, detections_filter.
Qed.

(** C2.  Every returned detection has [confidence >= score_thresh]: the
    rows below the threshold are dropped, so the result of [postprocess]
    does not depend on them.  The confidence of a detection is the
    confidence of its row, hence within [0, 1] for an engine whose rows
    are. *)
Theorem detections_respect_threshold self env paths images batch_size
  use_gpu output_dir score_thresh visualization log res :
  detect self env paths images batch_size use_gpu output_dir score_thresh
    visualization = (log, Ok res) ->
  (forall p feed r,
      In (p, feed) log -> In r (rows (predictor_run p feed)) ->
      (0 <= row_confidence r)%Q /\ (row_confidence r <= 1)%Q) ->
  (forall rec d,
      In rec res -> In d (data rec) ->
      (score_thresh <= confidence d)%Q /\
      (0 <= confidence d)%Q /\ (confidence d <= 1)%Q) /\
  (forall d handle_id,
      post (paths_or_empty paths) images (drop_below score_thresh d)
        score_thresh (label_names self) output_dir handle_id visualization =
      post (paths_or_empty paths) images d score_thresh (label_names self)
        output_dir handle_id visualization).
Proof.
  intros H Hrange. split; [|intros; apply postprocess_drop_below].
  intros rec d Hrec Hd.
  apply detect_ok_inv in H. destruct H as (_ & _ & H).
  destruct (loop_origin _ _ _ _ _ _ _ _ _ _ _ _ _ H rec Hrec)
    as [[] | (p & feed & h & i & Hlog & Hr)].
  apply image_record_ok in Hr. destruct Hr as (src & im & _ & _ & Hdets & _).
  destruct (detection_row _ _ _ _ _ _ Hdets Hd) as (r & Hr & Hk & Hrd).
  apply filter_In in Hr. destruct Hr as (Hr & _).
  apply to_detection_fields in Hrd. destruct Hrd as (-> & _).
  destruct (Hrange p feed r Hlog Hr) as (H0 & H1).
  repeat split; auto. now apply kept_threshold.
Qed.

(** *** The GPU request *)

Lemma check_gpu_env_invalid (env : Environ) :
  (env "CUDA_VISIBLE_DEVICES" = None \/
   env "CUDA_VISIBLE_DEVICES" = Some EmptyString \/
   exists c rest, env "CUDA_VISIBLE_DEVICES" = Some (String c rest) /\
                  is_digit c = false) ->
  check_gpu_env env true = Raise RuntimeError.
Proof.
  intros H. destruct (check_gpu_env_cases env true) as [Hok|Hr]; [|exact Hr].
  apply check_gpu_env_ok_iff, probe_ok_iff in Hok.
  destruct Hok as (c & rest & E & D).
  destruct H as [H | [H | (c' & rest' & H & D')]]; congruence.
Qed.

(** C4.  With [use_gpu=True] and CUDA_VISIBLE_DEVICES unset, empty or not
    starting with a decimal digit, the call raises the RuntimeError and
    the engine log is empty: no predictor, CPU or GPU, was run. *)
Theorem gpu_request_without_devices_raises self env paths images batch_size
  output_dir score_thresh visualization :
  (env "CUDA_VISIBLE_DEVICES" = None \/
   env "CUDA_VISIBLE_DEVICES" = Some EmptyString \/
   exists c rest, env "CUDA_VISIBLE_DEVICES" = Some (String c rest) /\
                  is_digit c = false) ->
  detect self env paths images batch_size true output_dir score_thresh
    visualization = ([], Raise RuntimeError).
Proof.
  intros H. apply check_gpu_env_invalid in H.
  unfold object_detection. rewrite H. reflexivity.
Qed.

(** *** Serving *)

(** C5.  [serving_method] decodes the images and returns what
    [object_detection] returns for [images] set to the decoded images and
    the same keyword options, engine calls included; when an image does
    not decode the exception of the decoder is raised instead. *)
Theorem serving_method_is_object_detection self env images kwargs :
  serving_method imread preprocess predictor_run dir_writable save_name
    base64_to_cv2 self env images kwargs =
  match mapR base64_to_cv2 images with
  | Ok images_decode =>
      detect self env
        (or_default (kw_paths kwargs) None)
        (Some images_decode)
        (or_default (kw_batch_size kwargs) 1%Z)
        (or_default (kw_use_gpu kwargs) false)
        (or_default (kw_output_dir kwargs) "yolov3_vehicles_detect_output")
        (or_default (kw_score_thresh kwargs) (2 # 10)%Q)
        (or_default (kw_visualization kwargs) true)
  | Raise e => ([], Raise e)
  end.
Proof.
  unfold serving_method, object_detection_kw.
  destruct (mapR base64_to_cv2 images) as [images_decode|e]; [|reflexivity].
  unfold bindM at 1. unfold liftM at 1.
  match goal with |- (let (_, _) := ?c in _) = _ => destruct c as [log r] end.
  reflexivity.
Qed.

(** *** Input source *)

Lemma live_source_paths (paths : list PyPath) (images : option (list Image)) :
  paths <> [] -> live_source paths images = map FromPath paths.
Proof.
  destruct paths; [intros H; now elim H | reflexivity].
Qed.

Lemma postprocess_paths paths images d score_thresh labels output_dir
  handle_id visualization :
  paths <> [] ->
  post paths images d score_thresh labels output_dir handle_id visualization =
  post paths None d score_thresh labels output_dir handle_id visualization.
Proof.
  intros H. unfold postprocess.
  destruct (visualization && negb (dir_writable output_dir)); [reflexivity|].
  apply mapR_ext. intros index _. unfold image_record.
  now rewrite !live_source_paths by exact H.
Qed.

Lemma loop_paths self paths images batch_size use_gpu output_dir score_thresh
  visualization batches :
  paths <> [] ->
  forall res iter_id,
    loop self paths images batch_size use_gpu output_dir score_thresh
      visualization res iter_id batches =
    loop self paths None batch_size use_gpu output_dir score_thresh
      visualization res iter_id batches.
Proof.
  intros H. induction batches as [|[c|e] rest IH]; intros res iter_id; cbn;
    try reflexivity.
  unfold bindM. destruct (run_predictor predictor_run self use_gpu c) as [l [d|e]];
    [|reflexivity].
  rewrite postprocess_paths by exact H. unfold liftM.
  destruct (post paths None d score_thresh (label_names self) output_dir
              (iter_id * batch_size) visualization) as [output|e];
    [|reflexivity].
  now rewrite IH.
Qed.

(** C7.  When [paths] is not empty the reader takes its inputs from
    [paths] alone: whatever [images] holds, the inputs, the reader's
    sequence and the whole call are those of the same call without
    [images]. *)
Theorem paths_take_precedence self env paths images batch_size use_gpu
  output_dir score_thresh visualization :
  paths <> [] ->
  live_source paths images = map FromPath paths /\
  read paths images = read paths None /\
  detect self env (Some paths) images batch_size use_gpu output_dir
    score_thresh visualization =
  detect self env (Some paths) None batch_size use_gpu output_dir
    score_thresh visualization.
Proof.
  intros H. split; [now apply live_source_paths|].
  assert (R : read paths images = read paths None).
  { unfold reader. now rewrite !live_source_paths by exact H. }
  split; [exact R|].
  unfold object_detection. rewrite R.
  destruct (check_gpu_env env use_gpu) as [[]|e]; [|reflexivity].
  destruct (batch (read paths None) batch_size) as [batches|e]; [|reflexivity].
  unfold bindM, liftM. now rewrite loop_paths by exact H.
Qed.

(** *** The command line *)

Local Abbreviation parse := (parse_known_args literal_eval).
Local Abbreviation cmd :=
  (run_cmd imread preprocess predictor_run dir_writable save_name literal_eval).

Lemma same_field_refl d ns : same_field d ns ns.
Proof.
  destruct d; reflexivity.
Qed.

Lemma same_field_trans d a b c :
  same_field d a b -> same_field d b c -> same_field d a c.
Proof.
  destruct d; cbn; congruence.
Qed.

(** Storing the value of one option leaves the others alone. *)
Lemma store_same_field d d' v ns ns' :
  store literal_eval d v ns = Ok ns' -> d' <> d -> same_field d' ns ns'.
Proof.
  intros H Hne.
  destruct d; cbn in H; try discriminate;
    try (apply bindR_ok in H; destruct H as (v' & _ & H));
    injection H as <-; destruct d'; cbn; try reflexivity; now elim Hne.
Qed.

(** One step of the parser that does not stop it. *)
Lemma parse_step arg rest ns extras ns' :
  parse (arg :: rest) ns extras = Ok ns' ->
  ((parse_optional arg = TArgument \/ parse_optional arg = TUnknown) /\
   parse rest ns true = Ok ns') \/
  (exists d v ns1,
      parse_optional arg = TOption d (Some v) /\
      store literal_eval d v ns = Ok ns1 /\
      parse rest ns1 extras = Ok ns') \/
  (exists d v rest' ns1,
      parse_optional arg = TOption d None /\
      rest = v :: rest' /\ is_argument v = true /\
      store literal_eval d v ns = Ok ns1 /\
      parse rest' ns1 extras = Ok ns').
Proof.
  cbn [parse_known_args]. destruct (String.eqb arg "--"); [discriminate|].
  destruct (parse_optional arg) as [|d [v|]| |] eqn:P; intros H;
    try discriminate; try (left; split; [auto | exact H]).
  - right; left.
    assert (H' : bindR (store literal_eval d v ns)
                   (fun ns1 => parse rest ns1 extras) = Ok ns')
      by (destruct d; exact H).
    apply bindR_ok in H'. destruct H' as (ns1 & Hs & Hp).
    now exists d, v, ns1.
  - right; right.
    destruct rest as [|v rest']; [destruct d; discriminate|].
    destruct (is_argument v) eqn:Hv; [|destruct d; discriminate].
    assert (H' : bindR (store literal_eval d v ns)
                   (fun ns1 => parse rest' ns1 extras) = Ok ns')
      by (destruct d; try discriminate; exact H).
    apply bindR_ok in H'. destruct H' as (ns1 & Hs & Hp).
    now exists d, v, rest', ns1.
Qed.

(** An option no token selects keeps the value it had. *)
Lemma parse_keeps d :
  forall n argv ns extras ns',
    List.length argv <= n ->
    parse argv ns extras = Ok ns' ->
    ~ selects d argv ->
    same_field d ns ns'.
Proof.
  induction n as [|n IH]; intros argv ns extras ns' Hn H Hd.
  - destruct argv; [|cbn in Hn; lia]. cbn in H.
    destruct extras; [discriminate|]. injection H as <-. apply same_field_refl.
  - destruct argv as [|arg rest].
    { cbn in H. destruct extras; [discriminate|]. injection H as <-.
      apply same_field_refl. }
    cbn in Hn.
    assert (Hrest : ~ selects d rest).
    { intros (tok & e & Hin & Ht). apply Hd. exists tok, e. split; [now right|auto]. }
    apply parse_step in H.
    destruct H as [(_ & H) | [(d0 & v & ns1 & P & Hs & H)
                             | (d0 & v & rest' & ns1 & P & -> & Hv & Hs & H)]].
    + apply (IH rest ns true ns'); auto. lia.
    + assert (d <> d0).
      { intros ->. apply Hd. exists arg, (Some v). split; [now left|auto]. }
      apply same_field_trans with ns1; [now apply (store_same_field d0 d v)|].
      apply (IH rest ns1 extras ns'); auto. lia.
    + assert (d <> d0).
      { intros ->. apply Hd. exists arg, None. split; [now left|auto]. }
      apply same_field_trans with ns1; [now apply (store_same_field d0 d v)|].
      apply (IH rest' ns1 extras ns'); auto.
      * cbn in Hn. lia.
      * intros (tok & e & Hin & Ht). apply Hrest. exists tok, e.
        split; [now right|auto].
Qed.

(** A [None] path cannot be read: the call raises before any batch
    reaches the engine. *)
Lemma detect_none_path self env batch_size use_gpu output_dir score_thresh
  visualization :
  exists e,
    detect self env (Some [PNone]) None batch_size use_gpu output_dir
      score_thresh visualization = ([], Raise e).
Proof.
  unfold object_detection.
  destruct (check_gpu_env env use_gpu) as [[]|e]; [|now exists e].
  unfold batch. destruct (batch_size <=? 0)%Z; [now exists ValueError|].
  exists DecodeError. reflexivity.
Qed.

(** [run_cmd] step by step: the parser, then the checks in the order the
    call makes them. *)
Lemma run_cmd_cases self env argvs :
  cmd self env argvs =
  match parse_args literal_eval argvs with
  | Raise e => ([], Raise e)
  | Ok args =>
      match check_gpu_env env (truthy (arg_use_gpu args)) with
      | Raise e => ([], Raise e)
      | Ok _ =>
          match int_of_value (arg_batch_size args) with
          | Raise e => ([], Raise e)
          | Ok bs =>
              if (bs <=? 0)%Z then ([], Raise ValueError)
              else
                match as_float (arg_score_thresh args) with
                | Raise e => ([], Raise e)
                | Ok thr =>
                    detect self env (Some [arg_input_path args]) None bs
                      (truthy (arg_use_gpu args)) (arg_output_dir args) thr
                      (truthy (arg_visualization args))
                end
          end
      end
  end.
Proof.
  unfold run_cmd, object_detection_values.
  destruct (parse_args literal_eval argvs) as [args|e]; [|reflexivity].
  rewrite bindM_liftM_ok.
  destruct (check_gpu_env env (truthy (arg_use_gpu args))) as [[]|e];
    [|reflexivity].
  rewrite bindM_liftM_ok.
  destruct (int_of_value (arg_batch_size args)) as [bs|e]; [|reflexivity].
  rewrite bindM_liftM_ok.
  destruct (bs <=? 0)%Z; [reflexivity|].
  rewrite bindM_liftM_ok.
  destruct (as_float (arg_score_thresh args)) as [thr|e]; [|reflexivity].
  now rewrite bindM_liftM_ok.
Qed.

Lemma parse_input_path_only (p : string) :
  is_argument p = true ->
  parse_args literal_eval ["--input_path"; p] =
  Ok {| arg_input_path := PStr p;
        arg_batch_size := VInt 1;
        arg_use_gpu := VBool false;
        arg_output_dir := "yolov3_vehicles_detect_output";
        arg_visualization := VBool false;
        arg_score_thresh := VFloat (2 # 10)%Q |}.
Proof.
  intros Hp. unfold parse_args.
  assert (Ha : ambiguous_token ["--input_path"; p] = false).
  { cbn [ambiguous_token]. change (String.eqb "--input_path" "--") with false.
    change (ambiguous "--input_path") with false. cbv iota. cbn [orb].
    destruct (String.eqb p "--"); [reflexivity|].
    unfold ambiguous, is_argument in *.
    destruct (parse_optional p); try reflexivity.
    now rewrite andb_false_r in Hp. }
  rewrite Ha. cbn [parse_known_args].
  change (String.eqb "--input_path" "--") with false.
  change (parse_optional "--input_path") with (TOption DInputPath None).
  cbv iota. rewrite Hp. reflexivity.
Qed.

(** C8.  Without arguments every option has its default: batch_size 1,
    use_gpu False, output_dir 'yolov3_vehicles_detect_output',
    visualization False, score_thresh 0.2, and no input path.  An option
    that no token of the command line selects keeps its default, so
    [--input_path p] alone runs [object_detection] on [p] with the
    defaults.  A command line that is rejected raises, and one that gives
    no input path raises before any inference. *)
Theorem run_cmd_defaults_and_input :
  parse_args literal_eval [] =
    Ok {| arg_input_path := PNone;
          arg_batch_size := VInt 1;
          arg_use_gpu := VBool false;
          arg_output_dir := "yolov3_vehicles_detect_output";
          arg_visualization := VBool false;
          arg_score_thresh := VFloat (2 # 10)%Q |} /\
  (forall argv ns d,
      parse_args literal_eval argv = Ok ns ->
      ~ selects d argv ->
      same_field d default_namespace ns) /\
  (forall self env p,
      is_argument p = true ->
      cmd self env ["--input_path"; p] =
      detect self env (Some [PStr p]) None 1%Z false
        "yolov3_vehicles_detect_output" (2 # 10)%Q false) /\
  (forall self env argv ns,
      parse_args literal_eval argv = Ok ns ->
      arg_input_path ns = PNone ->
      exists e, cmd self env argv = ([], Raise e)) /\
  (forall self env argv e,
      parse_args literal_eval argv = Raise e ->
      cmd self env argv = ([], Raise e)).
Proof.
  split; [reflexivity|]. split; [|split; [|split]].
  - intros argv ns d H Hd. unfold parse_args in H.
    destruct (ambiguous_token argv); [discriminate|].
    now apply (parse_keeps d (List.length argv) argv default_namespace false ns).
  - intros self env p Hp. rewrite run_cmd_cases.
    rewrite (parse_input_path_only p Hp). reflexivity.
  - intros self env argv ns H Hnone. rewrite run_cmd_cases, H, Hnone.
    destruct (check_gpu_env env (truthy (arg_use_gpu ns))) as [[]|e];
      [|now exists e].
    destruct (int_of_value (arg_batch_size ns)) as [bs|e]; [|now exists e].
    destruct (bs <=? 0)%Z; [now exists ValueError|].
    destruct (as_float (arg_score_thresh ns)) as [thr|e]; [|now exists e].
    apply detect_none_path.
  - intros self env argv e H. rewrite run_cmd_cases. now rewrite H.
Qed.

(** *** The check, seen from the call *)

(** C10.  With [use_gpu=True] the check passes exactly when
    CUDA_VISIBLE_DEVICES is set, is not empty and its first character is
    accepted by [int], that is, is a decimal digit; the rest of the value
    is never looked at.  Every other environment gives the RuntimeError:
    ["-1"], the empty string and an unset variable raise, ["0,1"] passes.
    [_set_config] creates the GPU predictor under the same condition.  A
    call with [use_gpu=True] raises the RuntimeError when the check fails,
    and two environments that pass the check give the same call. *)
Theorem gpu_check_first_character :
  (forall env,
      check_gpu_env env true = Ok tt <->
      exists c rest, env "CUDA_VISIBLE_DEVICES" = Some (String c rest) /\
                     exists z, py_int (String c EmptyString) = Ok z) /\
  (forall c, (exists z, py_int (String c EmptyString) = Ok z) <->
             is_digit c = true) /\
  (forall env, check_gpu_env env true <> Ok tt ->
               check_gpu_env env true = Raise RuntimeError) /\
  (forall env c rest rest',
      env "CUDA_VISIBLE_DEVICES" = Some (String c rest) ->
      check_gpu_env env true =
      check_gpu_env (Fixture.env_cuda (Some (String c rest'))) true) /\
  check_gpu_env (Fixture.env_cuda (Some "-1")) true = Raise RuntimeError /\
  check_gpu_env (Fixture.env_cuda (Some "")) true = Raise RuntimeError /\
  check_gpu_env (Fixture.env_cuda None) true = Raise RuntimeError /\
  check_gpu_env (Fixture.env_cuda (Some "0,1")) true = Ok tt /\
  (forall env labels,
      gpu_predictor (_set_config env labels) <> None <->
      check_gpu_env env true = Ok tt) /\
  (forall self env paths images batch_size output_dir score_thresh
          visualization,
      check_gpu_env env true <> Ok tt ->
      detect self env paths images batch_size true output_dir
        score_thresh visualization = ([], Raise RuntimeError)) /\
  (forall self env env' paths images batch_size output_dir score_thresh
          visualization,
      check_gpu_env env true = Ok tt ->
      check_gpu_env env' true = Ok tt ->
      detect self env paths images batch_size true output_dir
        score_thresh visualization =
      detect self env' paths images batch_size true output_dir
        score_thresh visualization).
Proof.
  split; [|split; [|split; [|split; [|split; [|split; [|split; [|split;
    [|split; [|split]]]]]]]]].
  - intros env. split.
    + intros H. apply check_gpu_env_ok_iff, probe_ok_iff in H.
      destruct H as (c & rest & E & D). exists c, rest. split; [exact E|].
      now apply py_int_one_char.
    + intros (c & rest & E & D). apply check_gpu_env_ok_iff, probe_ok_iff.
      exists c, rest. split; [exact E|]. now apply py_int_one_char.
  - exact py_int_one_char.
  - intros env H.
    destruct (check_gpu_env_cases env true); [contradiction | assumption].
  - intros env c rest rest' E.
    unfold check_gpu_env, cuda_places_probe, environ_get.
    rewrite E. reflexivity.
  - reflexivity.
  - reflexivity.
  - reflexivity.
  - reflexivity.
  - intros env labels. unfold _set_config, check_gpu_env.
    cbn [gpu_predictor].
    destruct (cuda_places_probe env); split;
      try discriminate; try reflexivity; intros H; now elim H.
  - intros self env paths images batch_size output_dir score_thresh
      visualization H.
    destruct (check_gpu_env_cases env true) as [E|E]; [contradiction|].
    unfold object_detection. rewrite E. reflexivity.
  - intros self env env' paths images batch_size output_dir score_thresh
      visualization E E'.
    unfold object_detection. rewrite E, E'. reflexivity.
Qed.

(** *** The engine calls of a request *)

Lemma bindM_fst {A B} (c : M A) (k : A -> M B) :
  fst (bindM c k) =
  fst c ++ match snd c with
           | Ok a => fst (k a)
           | Raise _ => []
           end.
Proof.
  unfold bindM. destruct c as [l [a|e]]; cbn.
  - destruct (k a) as [l' r]. reflexivity.
  - now rewrite app_nil_r.
Qed.

(** The number of batches is the number of inputs over the batch size,
    rounded up. *)
Lemma well_chunked_count {A} (batch_size : nat) (cs : list (list A)) :
  well_chunked batch_size cs ->
  List.length (List.concat cs) <= List.length cs * batch_size /\
  (cs <> [] ->
   List.length cs * batch_size < List.length (List.concat cs) + batch_size).
Proof.
  induction cs as [|c rest IH]; intros W.
  - split; [cbn; lia | intros H; now elim H].
  - destruct W as (Wfull & Wlen & Wrest). destruct (IH Wrest) as (I1 & I2).
    cbn [List.concat List.length]. rewrite length_app. cbn [Nat.mul].
    split; [lia|]. intros _. destruct rest as [|c' rest].
    + cbn. lia.
    + assert (List.length c = batch_size) by (apply Wfull; discriminate).
      assert (c' :: rest <> []) by discriminate. specialize (I2 H0). lia.
Qed.

Section Trace.

Variable self : Module.
Variable paths : list PyPath.
Variable images : option (list Image).
Variable batch_size : nat.
Variable use_gpu : bool.
Variable output_dir : string.
Variable score_thresh : Q.
Variable visualization : bool.

Local Abbreviation loop' :=
  (loop self paths images batch_size use_gpu output_dir score_thresh
     visualization).

(** Whatever happens to the request, the engine is only ever reached
    through the predictor [use_gpu] selects. *)
Lemma loop_routing (batches : list (result (list BatchItem))) :
  forall res iter_id,
    Forall (fun c : Call => predictor_of self use_gpu = Some (fst c))
           (fst (loop' res iter_id batches)).
Proof.
  induction batches as [|[c|e] rest IH]; intros res iter_id;
    cbn [detect_batches].
  - constructor.
  - rewrite bindM_fst. apply Forall_app. split.
    + unfold run_predictor, predictor_of. destruct use_gpu.
      * destruct (gpu_predictor self) as [p|]; repeat constructor.
      * repeat constructor.
    + destruct (snd (run_predictor predictor_run self use_gpu c)) as [d|e];
        [|constructor].
      rewrite bindM_fst. unfold liftM. cbn [fst snd app].
      destruct (post paths images d score_thresh (label_names self)
                  output_dir (iter_id * batch_size) visualization);
        [apply IH | constructor].
  - constructor.
Qed.

(** The trace of a run that returns: one engine call per batch, in
    order, and the result is built from [postprocess] on each of them. *)
Lemma loop_trace (cs : list (list BatchItem)) :
  forall res iter_id log out,
    loop' res iter_id (map Ok cs) = (log, Ok out) ->
    map snd log = cs /\
    exists outs,
      out = res ++ List.concat outs /\
      List.length outs = List.length log /\
      forall j c o,
        nth_error log j = Some c -> nth_error outs j = Some o ->
        post paths images (predictor_run (fst c) (snd c)) score_thresh
          (label_names self) output_dir ((iter_id + j) * batch_size)
          visualization = Ok o.
Proof.
  induction cs as [|c0 rest IH]; intros res iter_id log out H; cbn in H.
  - injection H as <- <-. split; [reflexivity|]. exists []. cbn.
    rewrite app_nil_r. repeat split. intros [|j] c o Hc; discriminate.
  - apply bindM_ok in H. destruct H as (l1 & d & l2 & Hrun & H & ->).
    apply run_predictor_ok in Hrun. destruct Hrun as (p & Hp & -> & ->).
    apply bindM_ok in H. destruct H as (l3 & output & l4 & Hpost & H & ->).
    apply liftM_ok in Hpost. destruct Hpost as (Hpost & ->).
    apply IH in H. destruct H as (Hlog & outs & -> & Hlen & Hall).
    cbn [app map snd]. split; [now rewrite Hlog|].
    exists (output :: outs). cbn [List.concat List.length].
    split; [now rewrite <- app_assoc|]. split; [now rewrite Hlen|].
    intros [|j] c o Hc Ho; cbn in Hc, Ho.
    + injection Hc as <-. injection Ho as <-. cbn [fst snd].
      now rewrite Nat.add_0_r.
    + replace (iter_id + S j) with (S iter_id + j) by lia.
      now apply Hall.
Qed.

End Trace.

Lemma detect_routing self env paths images batch_size use_gpu output_dir
  score_thresh visualization :
  Forall (fun c : Call => predictor_of self use_gpu = Some (fst c))
         (fst (detect self env paths images batch_size use_gpu output_dir
                 score_thresh visualization)).
Proof.
  unfold object_detection. rewrite bindM_fst. unfold liftM at 1.
  cbn [fst snd app].
  destruct (check_gpu_env env use_gpu) as [[]|e]; [|constructor].
  rewrite bindM_fst. unfold liftM at 1. cbn [fst snd app].
  destruct (batch _ batch_size) as [batches|e]; [|constructor].
  apply loop_routing.
Qed.

(** X1.  Every engine call of a request, whether the request returns or
    raises, goes to the predictor that [use_gpu] selects (lines 213-218):
    a CPU request never reaches the GPU predictor, and a GPU request
    never falls back to the CPU predictor. *)
Theorem engine_calls_use_requested_predictor self env paths images batch_size
  output_dir score_thresh visualization :
  Forall (fun c : Call => fst c = cpu_predictor self)
         (fst (detect self env paths images batch_size false output_dir
                 score_thresh visualization)) /\
  Forall (fun c : Call => gpu_predictor self = Some (fst c))
         (fst (detect self env paths images batch_size true output_dir
                 score_thresh visualization)).
Proof.
  split.
  - eapply Forall_impl; [|apply detect_routing]. cbn.
    intros c H. now injection H as <-.
  - apply (detect_routing self env paths images batch_size true).
Qed.

Lemma loop_no_gpu self paths images batch_size output_dir score_thresh
  visualization res iter_id batches :
  gpu_predictor self = None ->
  loop self paths images batch_size true output_dir score_thresh
    visualization res iter_id batches =
  match batches with
  | [] => ([], Ok res)
  | Raise e :: _ => ([], Raise e)
  | Ok _ :: _ => ([], Raise AttributeError)
  end.
Proof.
  intros G. destruct batches as [|[c|e] rest]; cbn [detect_batches];
    try reflexivity.
  unfold run_predictor. rewrite G. reflexivity.
Qed.

(** The first batch is yielded once the readable front of the inputs
    fills it, or once the inputs end after a non-empty front. *)
Lemma batch_reader_first {A} bs (xs : list A) rest b :
  List.length b < bs ->
  bs <= List.length b + List.length xs \/ (rest = [] /\ b ++ xs <> []) ->
  exists c tail,
    batch_reader bs (map Ok xs ++ rest) b = Ok c :: tail.
Proof.
  revert b. induction xs as [|x xs IH]; intros b Hb H.
  - destruct H as [H|[-> H]]; [cbn in H; lia|].
    rewrite app_nil_r in H. cbn.
    destruct b as [|y b]; [now elim H|]. now exists (y :: b), [].
  - cbn [map app batch_reader].
    destruct (Nat.eqb_spec (List.length (b ++ [x])) bs) as [E|E].
    + now exists (b ++ [x]), (batch_reader bs (map Ok xs ++ rest) []).
    + rewrite length_app in E. cbn in E.
      apply IH.
      * rewrite length_app. cbn. lia.
      * destruct H as [H|[-> H]].
        -- left. rewrite length_app. cbn in *. lia.
        -- right. split; [reflexivity|]. rewrite <- app_assoc. exact H.
Qed.

(** A read that fails before the first batch is full ends the sequence
    with the error. *)
Lemma batch_reader_error {A} bs (xs : list A) e rest b :
  List.length b + List.length xs < bs ->
  batch_reader bs (map Ok xs ++ Raise e :: rest) b = [Raise e].
Proof.
  revert b. induction xs as [|x xs IH]; intros b H; [reflexivity|].
  cbn [map app batch_reader]. cbn in H.
  destruct (Nat.eqb_spec (List.length (b ++ [x])) bs) as [E|E].
  - rewrite length_app in E. cbn in E. lia.
  - apply IH. rewrite length_app. cbn. lia.
Qed.

(** X2.  A GPU request on a module whose GPU predictor was never created
    (lines 54-58) makes no engine call at all, in particular none on the
    CPU, and returns no record.  When the GPU check passes, the outcome is
    decided by the first batch (lines 207-214): once the inputs that read
    before any failure fill a batch, or are all the inputs and at least
    one, the call raises AttributeError (line 214), whatever follows;
    when a read fails before the first batch is full, that read's error
    is raised instead. *)
Theorem gpu_request_without_gpu_predictor self env paths images batch_size
  output_dir score_thresh visualization :
  gpu_predictor self = None ->
  let call := detect self env paths images batch_size true output_dir
                score_thresh visualization in
  fst call = [] /\
  (forall res, snd call = Ok res -> res = []) /\
  (forall front rest,
      check_gpu_env env true = Ok tt ->
      (0 < batch_size)%Z ->
      read (paths_or_empty paths) images = map Ok front ++ rest ->
      front <> [] ->
      Z.to_nat batch_size <= List.length front \/ rest = [] ->
      call = ([], Raise AttributeError)) /\
  (forall front e rest,
      check_gpu_env env true = Ok tt ->
      (0 < batch_size)%Z ->
      read (paths_or_empty paths) images = map Ok front ++ Raise e :: rest ->
      List.length front < Z.to_nat batch_size ->
      call = ([], Raise e)).
Proof.
  intros G call. subst call. unfold object_detection.
  change (match paths with Some l => l | None => [] end)
    with (paths_or_empty paths).
  unfold batch, bindM, liftM.
  destruct (check_gpu_env env true) as [[]|e0].
  2:{ split; [reflexivity|]. split; [intros res H; discriminate|].
      split; [intros ? ? H | intros ? ? ? H]; discriminate H. }
  destruct (Z.leb_spec batch_size 0) as [Hle|Hlt].
  { split; [reflexivity|]. split; [intros res H; discriminate|].
    split; [intros ? ? _ H | intros ? ? ? _ H]; lia. }
  rewrite (loop_no_gpu self (paths_or_empty paths) images
             (Z.to_nat batch_size) output_dir score_thresh visualization
             [] 0 _ G).
  assert (Hpos : 0 < Z.to_nat batch_size) by lia.
  split; [|split; [|split]].
  - destruct (batch_reader _ _ _) as [|[c|e] rest]; reflexivity.
  - destruct (batch_reader _ _ _) as [|[c|e] rest]; cbn;
      intros res H; try discriminate. now injection H as <-.
  - intros front rest _ _ Hread Hne Hfull. rewrite Hread.
    destruct (batch_reader_first (Z.to_nat batch_size) front rest [])
      as (c & tail & ->); [exact Hpos| |reflexivity].
    destruct Hfull as [H| ->]; [left; cbn; lia | right; now split].
  - intros front e rest _ _ Hread Hshort. rewrite Hread.
    rewrite batch_reader_error by (cbn; lia). reflexivity.
Qed.

(** X3.  A module initialised and called under the same environment
    agree (lines 48-58 and 196-218): when the GPU check of the call
    passes, the GPU predictor exists, on device 0, and every engine call
    of the request goes to it. *)
Theorem same_environment_gpu_request env labels paths images batch_size
  output_dir score_thresh visualization :
  check_gpu_env env true = Ok tt ->
  let self := _initialize env labels in
  gpu_predictor self = Some (GpuPredictor 0) /\
  Forall (fun c : Call => fst c = GpuPredictor 0)
         (fst (detect self env paths images batch_size true output_dir
                 score_thresh visualization)).
Proof.
  intros H self.
  assert (G : gpu_predictor self = Some (GpuPredictor 0)).
  { apply check_gpu_env_ok_iff in H. destruct H as (z & Hz).
    unfold self, _initialize, _set_config. now rewrite Hz. }
  split; [exact G|].
  pose proof (detect_routing self env paths images batch_size true
                output_dir score_thresh visualization) as R.
  unfold predictor_of in R. rewrite G in R.
  eapply Forall_impl; [|exact R]. cbn. intros c Hc. now injection Hc as <-.
Qed.

(** X4.  In a request that returns, the batches handed to the engine are
    the reader's items, each exactly once and in order: every batch has at
    most [batch_size] items, all but the last exactly [batch_size], so
    the engine is called ceil(n / batch_size) times (lines 206-218). *)
Theorem every_input_fed_once self env paths images batch_size use_gpu
  output_dir score_thresh visualization log res :
  detect self env paths images batch_size use_gpu output_dir score_thresh
    visualization = (log, Ok res) ->
  let bs := Z.to_nat batch_size in
  exists items,
    read (paths_or_empty paths) images = map Ok items /\
    List.concat (map snd log) = items /\
    well_chunked bs (map snd log) /\
    List.length items <= List.length log * bs /\
    List.length log * bs < List.length items + bs.
Proof.
  intros H bs. apply detect_ok_inv in H. destruct H as (_ & Hbs & H).
  assert (Hpos : 0 < bs) by (unfold bs; lia). fold bs in H.
  destruct (loop_reads_all _ _ _ _ _ _ _ _ _ _ _ _ _ _ H) as (items & Hitems).
  exists items. split; [exact Hitems|]. rewrite Hitems in H.
  destruct (batch_reader_chunks bs Hpos items []) as (cs & Hcs & Hcat & W);
    [exact Hpos|].
  cbn in Hcat. rewrite Hcs in H. apply loop_trace in H.
  destruct H as (Hlog & _). rewrite Hlog.
  split; [exact Hcat|]. split; [exact W|].
  destruct (well_chunked_count bs cs W) as (C1 & C2).
  rewrite <- Hcat.
  replace (List.length log) with (List.length cs)
    by (now rewrite <- Hlog, length_map).
  split; [exact C1|]. destruct cs as [|c rest].
  - cbn. lia.
  - apply C2. discriminate.
Qed.

(** X5.  The result of a request that returns is the concatenation, in
    order, of what [postprocess] returned for each engine call, and the
    call for batch [j] was made with [handle_id = j * batch_size] (lines
    208-230): earlier records are never changed by later batches. *)
Theorem result_is_concatenation self env paths images batch_size use_gpu
  output_dir score_thresh visualization log res :
  detect self env paths images batch_size use_gpu output_dir score_thresh
    visualization = (log, Ok res) ->
  exists outs,
    res = List.concat outs /\
    List.length outs = List.length log /\
    forall j c out,
      nth_error log j = Some c -> nth_error outs j = Some out ->
      post (paths_or_empty paths) images (predictor_run (fst c) (snd c))
        score_thresh (label_names self) output_dir
        (j * Z.to_nat batch_size) visualization = Ok out.
Proof.
  intros H. apply detect_ok_inv in H. destruct H as (_ & Hbs & H).
  assert (Hpos : 0 < Z.to_nat batch_size) by lia.
  destruct (loop_reads_all _ _ _ _ _ _ _ _ _ _ _ _ _ _ H) as (items & Hitems).
  rewrite Hitems in H.
  destruct (batch_reader_chunks (Z.to_nat batch_size) Hpos items [])
    as (cs & Hcs & _ & _); [exact Hpos|].
  rewrite Hcs in H. apply loop_trace in H.
  destruct H as (_ & outs & -> & Hlen & Hall).
  exists outs. cbn [app]. repeat split; auto.
Qed.

(** X6.  Without any input (no paths, no images) the call reads nothing
    and runs nothing; it still checks the GPU environment first and the
    batch size second (lines 196-209), and otherwise returns the empty
    list. *)
Theorem no_input_no_inference self env paths images batch_size use_gpu
  output_dir score_thresh visualization :
  paths_or_empty paths = [] ->
  images = None \/ images = Some [] ->
  detect self env paths images batch_size use_gpu output_dir score_thresh
    visualization =
  ([], match check_gpu_env env use_gpu with
       | Raise _ => Raise RuntimeError
       | Ok _ => if (batch_size <=? 0)%Z then Raise ValueError else Ok []
       end).
Proof.
  intros Hp Hi. unfold object_detection.
  change (match paths with Some l => l | None => [] end)
    with (paths_or_empty paths).
  rewrite Hp.
  assert (R : read [] images = []) by (destruct Hi as [-> | ->]; reflexivity).
  rewrite R.
  destruct (check_gpu_env_cases env use_gpu) as [E|E]; rewrite E;
    [|reflexivity].
  unfold batch. destruct (batch_size <=? 0)%Z; reflexivity.
Qed.

(** *** Serving and the command line, end to end *)

Lemma mapR_first_failure {A B} (f : A -> result B) (good : list A) (bad : A)
  (rest : list A) (ys : list B) (e : exn) :
  mapR f good = Ok ys -> f bad = Raise e ->
  mapR f (good ++ bad :: rest) = Raise e.
Proof.
  revert ys. induction good as [|x good IH]; intros ys Hg Hb; cbn.
  - now rewrite Hb.
  - cbn in Hg. apply bindR_ok in Hg. destruct Hg as (y & Hy & Hg).
    apply bindR_ok in Hg. destruct Hg as (ys' & Hys & _).
    rewrite Hy. unfold bindR at 1. now rewrite (IH ys' Hys Hb).
Qed.

(** X7.  [serving_method] decodes every image before it calls
    [object_detection] (lines 260-261): the first image that does not
    decode decides the outcome.  Its exception is raised and nothing is
    inferred, whatever the images before and after it, the keyword
    options and the GPU environment. *)
Theorem serving_decodes_first self env good bad rest decoded e kwargs :
  mapR base64_to_cv2 good = Ok decoded ->
  base64_to_cv2 bad = Raise e ->
  serving_method imread preprocess predictor_run dir_writable save_name
    base64_to_cv2 self env (good ++ bad :: rest) kwargs = ([], Raise e).
Proof.
  intros Hg Hb. unfold serving_method.
  now rewrite (mapR_first_failure _ _ _ rest _ _ Hg Hb).
Qed.

Section Counting.

Hypothesis engine_per_image :
  forall p feed, im_num (predictor_run p feed) = List.length feed.

(** X8.  A serving request that passes no [paths] and returns gives one
    record per submitted image: every string was decoded, and the result
    is as long as the list of strings (lines 255-262 over 205-230). *)
Theorem serving_one_record_per_image self env images kwargs log res :
  paths_or_empty (or_default (kw_paths kwargs) None) = [] ->
  serving_method imread preprocess predictor_run dir_writable save_name
    base64_to_cv2 self env images kwargs = (log, Ok res) ->
  exists images_decode,
    mapR base64_to_cv2 images = Ok images_decode /\
    List.length images_decode = List.length images /\
    List.length res = List.length images.
Proof.
  intros Hp H. unfold serving_method in H.
  apply bindM_ok in H. destruct H as (l1 & decoded & l2 & Hd & H & ->).
  apply liftM_ok in Hd. destruct Hd as (Hd & ->).
  exists decoded. split; [exact Hd|].
  assert (L : List.length decoded = List.length images).
  { apply mapR_Forall2, Forall2_length in Hd. now symmetry. }
  split; [exact L|].
  unfold object_detection_kw in H.
  apply (record_at engine_per_image) in H. destruct H as (Hlen & _).
  rewrite Hp in Hlen. cbn in Hlen. now rewrite length_map, L in Hlen.
Qed.

(** X9.  [run_cmd] returns only when the command line names an input
    that can be read, and then with exactly one record: the parsed
    [--input_path] is the single element of [paths] (line 284). *)
Theorem run_cmd_returns_one_record self env argvs log res :
  cmd self env argvs = (log, Ok res) ->
  exists args p im,
    parse_args literal_eval argvs = Ok args /\
    arg_input_path args = PStr p /\
    imread p = Some im /\
    List.length res = 1.
Proof.
  intros H. rewrite run_cmd_cases in H.
  destruct (parse_args literal_eval argvs) as [args|e]; [|discriminate].
  destruct (check_gpu_env env (truthy (arg_use_gpu args))) as [[]|e];
    [|discriminate].
  destruct (int_of_value (arg_batch_size args)) as [bs|e]; [|discriminate].
  destruct (bs <=? 0)%Z; [discriminate|].
  destruct (as_float (arg_score_thresh args)) as [thr|e]; [|discriminate].
  apply (record_at engine_per_image) in H. cbn zeta in H.
  destruct H as (Hlen & Hall).
  destruct (Hall 0 (FromPath (arg_input_path args)) eq_refl)
    as (rec & im & _ & _ & _ & _ & Him & _).
  destruct (arg_input_path args) as [|p] eqn:Hpath; [discriminate|].
  cbn in Him. destruct (imread p) as [im'|] eqn:Hread; [|discriminate].
  exists args, p, im'. repeat split; auto.
Qed.

End Counting.

Lemma detect_single_path self env p batch_size use_gpu output_dir
  score_thresh visualization :
  let log := fst (detect self env (Some [p]) None batch_size use_gpu
                    output_dir score_thresh visualization) in
  List.length log <= 1 /\
  Forall (fun c : Call => List.length (snd c) = 1) log.
Proof.
  cbn zeta. unfold object_detection. rewrite bindM_fst. unfold liftM.
  cbn [fst snd app].
  destruct (check_gpu_env env use_gpu) as [[]|e]; [|cbn; auto].
  rewrite bindM_fst. unfold liftM, batch. cbn [fst snd app].
  destruct (batch_size <=? 0)%Z; [cbn; auto|]. cbn [snd].
  unfold reader. cbn [live_source map].
  destruct (bindR (load (FromPath p)) _) as [x|e]; [|cbn; auto].
  assert (B : forall n, batch_reader n [Ok x] [] = [Ok [x]]).
  { intros n. cbn [batch_reader app List.length].
    destruct (1 =? n); reflexivity. }
  rewrite B. cbn [detect_batches]. rewrite bindM_fst.
  assert (T : forall d : DataOut,
             fst (bindM (liftM (post [p] None d score_thresh
                                  (label_names self) output_dir
                                  (0 * Z.to_nat batch_size) visualization))
                    (fun output =>
                       loop self [p] None (Z.to_nat batch_size) use_gpu
                         output_dir score_thresh visualization
                         ([] ++ output) 1 [])) = []).
  { intros d. rewrite bindM_fst. unfold liftM. cbn [fst snd app].
    now destruct (post _ _ _ _ _ _ _ _). }
  unfold run_predictor. destruct use_gpu.
  - destruct (gpu_predictor self) as [g|]; cbn [fst snd raiseM app].
    + rewrite T. cbn. auto.
    + cbn. auto.
  - cbn [fst snd app]. rewrite T. cbn. auto.
Qed.

(** X10.  A command line leads to at most one engine call, and that call
    carries a single image, whatever [--batch_size] says: [run_cmd]
    passes one path and no images (lines 283-289). *)
Theorem run_cmd_single_engine_call self env argvs :
  let log := fst (cmd self env argvs) in
  List.length log <= 1 /\
  Forall (fun c : Call => List.length (snd c) = 1) log.
Proof.
  cbn zeta. rewrite run_cmd_cases.
  destruct (parse_args literal_eval argvs) as [args|e]; [|cbn; auto].
  destruct (check_gpu_env env (truthy (arg_use_gpu args))) as [[]|e];
    [|cbn; auto].
  destruct (int_of_value (arg_batch_size args)) as [bs|e]; [|cbn; auto].
  destruct (bs <=? 0)%Z; [cbn; auto|].
  destruct (as_float (arg_score_thresh args)) as [thr|e]; [|cbn; auto].
  apply detect_single_path.
Qed.

(** X11.  On the command line a GPU request under a bad environment is
    reported before anything else is looked at: with a true [--use_gpu]
    the RuntimeError is raised and nothing is read or inferred, whatever
    [--batch_size] and [--score_thresh] hold and also for a missing or
    unreadable [--input_path] (lines 283-289 over 196-203). *)
Theorem run_cmd_gpu_check_first self env argvs args :
  parse_args literal_eval argvs = Ok args ->
  truthy (arg_use_gpu args) = true ->
  check_gpu_env env true <> Ok tt ->
  cmd self env argvs = ([], Raise RuntimeError).
Proof.
  intros Ha Hg Hc. rewrite run_cmd_cases, Ha, Hg.
  destruct (check_gpu_env_cases env true) as [E|E]; [contradiction|].
  now rewrite E.
Qed.

End Properties.


(** ** Saving the model *)

(** X12.  [save_inference_model] always saves the program loaded from
    the module's own pretrained directory, into [dirname].  With
    [combined=True] the two file names handed to the framework are never
    missing nor empty: a name the caller gives is kept, [None] and the
    empty string become ["__model__"] and ["__params__"].  With
    [combined=False] the names are handed on untouched, [None] included
    (lines 232-253). *)
Theorem save_inference_model_filenames (Program : Type)
  (load_inference_model : string -> result Program)
  (default_pretrained_model_path dirname : string)
  (model_filename params_filename : option string) (combined : bool)
  (call : SaveCall Program) :
  save_inference_model Program load_inference_model
    default_pretrained_model_path dirname model_filename params_filename
    combined = Ok call ->
  load_inference_model default_pretrained_model_path
    = Ok (save_main_program call) /\
  save_dirname call = dirname /\
  if combined
  then (exists m p,
           save_model_filename call = Some m /\ m <> EmptyString /\
           save_params_filename call = Some p /\ p <> EmptyString) /\
       (forall m, model_filename = Some m -> m <> EmptyString ->
                  save_model_filename call = Some m) /\
       (forall p, params_filename = Some p -> p <> EmptyString ->
                  save_params_filename call = Some p) /\
       (model_filename = None \/ model_filename = Some EmptyString ->
        save_model_filename call = Some "__model__") /\
       (params_filename = None \/ params_filename = Some EmptyString ->
        save_params_filename call = Some "__params__")
  else save_model_filename call = model_filename /\
       save_params_filename call = params_filename.
Proof.
  unfold save_inference_model. intros H.
  apply bindR_ok in H. destruct H as (program & Hload & H).
  injection H as <-. cbn [save_main_program save_dirname save_model_filename
                          save_params_filename].
  split; [exact Hload|]. split; [reflexivity|].
  destruct combined; [|split; reflexivity].
  assert (N : forall d name,
             d <> EmptyString ->
             (exists m, name_or d name = Some m /\ m <> EmptyString) /\
             (forall m, name = Some m -> m <> EmptyString ->
                        name_or d name = Some m) /\
             (name = None \/ name = Some EmptyString ->
              name_or d name = Some d)).
  { intros d [[|c r]|] Hd; cbn; repeat split; eauto.
    - intros m Hm Hne. injection Hm as <-. now elim Hne.
    - exists (String c r). split; [reflexivity | discriminate].
    - intros [H | H]; discriminate.
    - intros m Hm. discriminate. }
  destruct (N "__model__" model_filename) as ((m & Hm & Hmne) & Hmk & Hmd);
    [discriminate|].
  destruct (N "__params__" params_filename) as ((p & Hp & Hpne) & Hpk & Hpd);
    [discriminate|].
  repeat split; auto. exists m, p. auto.
Qed.

(** ** Runs of the model *)

Example int_of_string :
  py_int " 12_3 " = Ok 123%Z /\
  py_int "-7" = Ok (-7)%Z /\
  py_int "0,1" = Raise ValueError /\
  py_int "-" = Raise ValueError /\
  py_int "1__0" = Raise ValueError.
Proof.
  repeat split.
Qed.

(** The scenario of section 8: threshold 0 keeps the three rows of the
    mocked engine in the order it emitted them, 0.2 drops the faint one. *)
Example threshold_scenario :
  forall it,
    (exists ds,
        detections Fixture.labels Fixture.street 0%Q (Fixture.rows_for 0 it)
        = Ok ds /\
        map confidence ds = [(9 # 10)%Q; (1 # 10)%Q; (1 # 2)%Q] /\
        map label ds = ["car"; "truck"; "bus"]) /\
    (exists ds,
        detections Fixture.labels Fixture.street (2 # 10)%Q
          (Fixture.rows_for 0 it) = Ok ds /\
        map confidence ds = [(9 # 10)%Q; (1 # 2)%Q]).
Proof.
  intros it. split; eexists; repeat split.
Qed.

Example three_files_two_batches :
  map (fun c : Call => List.length (snd c)) Fixture.run3_log = [2; 1] /\
  map save_path Fixture.run3_res =
    [Some "out/image_numpy_0.jpg"; Some "out/image_numpy_1.jpg";
     Some "out/image_numpy_2.jpg"] /\
  map (fun r => map label (data r)) Fixture.run3_res =
    [["car"; "bus"]; ["car"; "bus"]; ["car"; "bus"]].
Proof.
  repeat split.
Qed.

(** An unreadable second file: the first batch went through the engine,
    then the reader raised. *)
Example unreadable_file :
  object_detection Fixture.imread Fixture.preprocess Fixture.predictor_run
    Fixture.dir_writable Fixture.save_name Fixture.self_cpu
    (Fixture.env_cuda None)
    (Some [PStr "street.jpg"; PStr "nowhere.jpg"; PStr "yard.jpg"]) None
    1%Z false "out" (2 # 10)%Q false
  = ([(CpuPredictor,
       [{| image_tensor := Fixture.preprocess Fixture.street;
           im_size := (300, 400) |}])],
     Raise DecodeError).
Proof.
  vm_compute. reflexivity.
Qed.

(** A module started without a GPU, called later with one announced. *)
Example gpu_predictor_never_created :
  object_detection Fixture.imread Fixture.preprocess Fixture.predictor_run
    Fixture.dir_writable Fixture.save_name Fixture.self_cpu
    (Fixture.env_cuda (Some "0")) (Some Fixture.three_paths) None
    2%Z true "out" (2 # 10)%Q true
  = ([], Raise AttributeError).
Proof.
  vm_compute. reflexivity.
Qed.

Example batch_size_zero :
  object_detection Fixture.imread Fixture.preprocess Fixture.predictor_run
    Fixture.dir_writable Fixture.save_name Fixture.self_cpu
    (Fixture.env_cuda None) (Some Fixture.three_paths) None
    0%Z false "out" (2 # 10)%Q true
  = ([], Raise ValueError).
Proof.
  reflexivity.
Qed.

Example command_lines :
  parse_args Fixture.literal_eval
    ["--in=street.jpg"; "--batch"; "3"; "--vis"; "True"; "--o"; "x y"]
  = Ok {| arg_input_path := PStr "street.jpg";
          arg_batch_size := VInt 3;
          arg_use_gpu := VBool false;
          arg_output_dir := "x y";
          arg_visualization := VBool true;
          arg_score_thresh := VFloat (2 # 10)%Q |} /\
  parse_args Fixture.literal_eval ["--use_gpu"] = Raise (SystemExit 2) /\
  parse_args Fixture.literal_eval ["--use_gpu"; "maybe"] = Raise (SystemExit 2) /\
  parse_args Fixture.literal_eval ["street.jpg"] = Raise (SystemExit 2) /\
  parse_args Fixture.literal_eval ["street.jpg"; "-h"] = Raise (SystemExit 0) /\
  run_cmd Fixture.imread Fixture.preprocess Fixture.predictor_run
    Fixture.dir_writable Fixture.save_name Fixture.literal_eval
    Fixture.self_cpu (Fixture.env_cuda None) ["--batch_size"; "2"]
  = ([], Raise DecodeError).
Proof.
  repeat split.
Qed.

(** Corners of the parser: a run of [h] after [-h=] is help again, a
    [--] hides what follows from the search for ambiguous prefixes, a
    negative number may end in one newline; a batch size that is no
    number is refused by [int] once the GPU check has passed. *)
Example command_line_corners :
  parse_args Fixture.literal_eval ["-h=h"] = Raise (SystemExit 0) /\
  parse_args Fixture.literal_eval ["-h=x"] = Raise (SystemExit 2) /\
  parse_args Fixture.literal_eval ["-h"; "--"] = Raise (SystemExit 0) /\
  parse_args Fixture.literal_eval ["--"; "-h"] = Raise (SystemExit 2) /\
  parse_args Fixture.literal_eval ["-h"; "--="] = Raise (SystemExit 2) /\
  arg_batch_size
    (match parse_args Fixture.literal_eval
             ["--batch_size"; String "-" (String "1" (String "010" ""))]
     with Ok args => args | Raise _ => default_namespace end)
  = VInt (-1) /\
  run_cmd Fixture.imread Fixture.preprocess Fixture.predictor_run
    Fixture.dir_writable Fixture.save_name Fixture.literal_eval
    Fixture.self_cpu (Fixture.env_cuda None)
    ["--input_path"; "street.jpg"; "--batch_size"; "None"]
  = ([], Raise TypeError) /\
  run_cmd Fixture.imread Fixture.preprocess Fixture.predictor_run
    Fixture.dir_writable Fixture.save_name Fixture.literal_eval
    Fixture.self_cpu (Fixture.env_cuda None)
    ["--input_path"; "street.jpg"; "--batch_size"; "-1"]
  = ([], Raise ValueError).
Proof.
  repeat split.
Qed.

(** [int] strips the white space of [str.strip] on ASCII, tab to carriage
    return and the space, and not the separators 28 to 31. *)
Example int_white_space :
  py_int (String "011" "5") = Ok 5%Z /\
  py_int (String "028" "5") = Raise ValueError /\
  py_int (String "5" (String "031" "")) = Raise ValueError.
Proof.
  repeat split.
Qed.

Example device_lists :
  spec_valid_devices (Some "0") = true /\
  spec_valid_devices (Some "0,1") = true /\
  spec_valid_devices (Some "10,2,3") = true /\
  spec_valid_devices None = false /\
  spec_valid_devices (Some "") = false /\
  spec_valid_devices (Some "-1") = false /\
  spec_valid_devices (Some "0,") = false /\
  spec_valid_devices (Some "0x") = false /\
  spec_valid_devices (Some "9 garbage") = false.
Proof.
  repeat split.
Qed.

(** ** The properties on a concrete request

    The mocked engine of [Fixture] on three files, batches of two. *)

Lemma fixture_engine_per_image (p : Predictor) (feed : list BatchItem) :
  im_num (Fixture.predictor_run p feed) = List.length feed.
Proof.
  reflexivity.
Defined.

Lemma fixture_run3 :
  Fixture.run3 = (Fixture.run3_log, Ok Fixture.run3_res).
Proof.
  vm_compute. reflexivity.
Defined.

Lemma fixture_rows_shape (index : nat) (feed : list BatchItem) (r : Row) :
  In r (Fixture.rows_from index feed) ->
  ((0 <= row_confidence r)%Q /\ (row_confidence r <= 1)%Q) /\
  ((x1 r <= x2 r)%Q /\ (y1 r <= y2 r)%Q).
Proof.
  revert index. induction feed as [|it feed IH]; intros index H; cbn in H.
  - contradiction.
  - destruct H as [<- | [<- | [<- | H]]];
      try (cbn; repeat split; discriminate).
    exact (IH _ H).
Defined.

Lemma one_record_per_input_witness :
  Fixture.run3 = (Fixture.run3_log, Ok Fixture.run3_res) /\
  List.length Fixture.run3_res = 3.
Proof.
  split; [exact fixture_run3|].
  exact (proj1 (one_record_per_input Fixture.imread Fixture.preprocess
                  Fixture.predictor_run Fixture.dir_writable
                  Fixture.save_name fixture_engine_per_image
                  Fixture.self_cpu (Fixture.env_cuda None)
                  (Some Fixture.three_paths) None 2%Z false "out"
                  (2 # 10)%Q true Fixture.run3_log Fixture.run3_res
                  fixture_run3)).
Defined.

Lemma rows_attributed_by_batch_offset_witness :
  Fixture.run3 = (Fixture.run3_log, Ok Fixture.run3_res) /\
  exists items,
    reader Fixture.imread Fixture.preprocess Fixture.three_paths None
    = map Ok items /\
    exists p rec,
      In (p, nth_batch 2 1 items) Fixture.run3_log /\
      image_record Fixture.imread Fixture.save_name Fixture.three_paths None
        (Fixture.predictor_run p (nth_batch 2 1 items)) (2 # 10)%Q
        Fixture.labels "out" 2 true 0 = Ok rec /\
      nth_error Fixture.run3_res 2 = Some rec.
Proof.
  split; [exact fixture_run3|].
  destruct (rows_attributed_by_batch_offset Fixture.imread Fixture.preprocess
              Fixture.predictor_run Fixture.dir_writable Fixture.save_name
              fixture_engine_per_image
              Fixture.self_cpu (Fixture.env_cuda None)
              (Some Fixture.three_paths) None 2%Z false "out"
              (2 # 10)%Q true Fixture.run3_log Fixture.run3_res
              fixture_run3) as (items & Hitems & Hall).
  exists items. split; [exact Hitems|].
  destruct (Hall 1 0) as (p & rec & src & im & _ & Hin & Hrec & Hn & _).
  - cbn. lia.
  - cbn. lia.
  - exists p, rec. auto.
Defined.

Lemma boxes_within_image_witness :
  Fixture.run3 = (Fixture.run3_log, Ok Fixture.run3_res) /\
  (0 <= left Fixture.garage_car)%Q /\
  (left Fixture.garage_car <= right Fixture.garage_car)%Q /\
  (right Fixture.garage_car <= 1216)%Q /\
  (top Fixture.garage_car <= bottom Fixture.garage_car)%Q /\
  (bottom Fixture.garage_car <= 608)%Q.
Proof.
  split; [exact fixture_run3|].
  pose proof (boxes_within_image Fixture.imread Fixture.preprocess
                Fixture.predictor_run Fixture.dir_writable Fixture.save_name
                fixture_engine_per_image
                Fixture.self_cpu (Fixture.env_cuda None)
                (Some Fixture.three_paths) None 2%Z false "out"
                (2 # 10)%Q true Fixture.run3_log Fixture.run3_res
                fixture_run3
                (fun p feed r _ Hr => proj2 (fixture_rows_shape 0 feed r Hr))
                1 Fixture.garage_record (FromPath (PStr "garage.jpg"))
                Fixture.garage Fixture.garage_car
                eq_refl eq_refl eq_refl (or_introl eq_refl)) as H.
  cbn zeta in H.
  destruct H as ((H1 & _) & (_ & H2) & _ & (_ & H3) & H4 & H5).
  repeat split; assumption.
Defined.

Lemma detections_respect_threshold_witness :
  Fixture.run3 = (Fixture.run3_log, Ok Fixture.run3_res) /\
  In Fixture.garage_record Fixture.run3_res /\
  In Fixture.garage_car (data Fixture.garage_record) /\
  ((2 # 10) <= confidence Fixture.garage_car)%Q /\
  (0 <= confidence Fixture.garage_car)%Q /\
  (confidence Fixture.garage_car <= 1)%Q.
Proof.
  split; [exact fixture_run3|].
  assert (Hrec : In Fixture.garage_record Fixture.run3_res)
    by (right; left; reflexivity).
  assert (Hd : In Fixture.garage_car (data Fixture.garage_record))
    by (left; reflexivity).
  split; [exact Hrec|]. split; [exact Hd|].
  exact (proj1 (detections_respect_threshold Fixture.imread
                  Fixture.preprocess Fixture.predictor_run
                  Fixture.dir_writable Fixture.save_name
                  Fixture.self_cpu (Fixture.env_cuda None)
                  (Some Fixture.three_paths) None 2%Z false "out"
                  (2 # 10)%Q true Fixture.run3_log Fixture.run3_res
                  fixture_run3
                  (fun p feed r _ Hr => proj1 (fixture_rows_shape 0 feed r Hr)))
               Fixture.garage_record Fixture.garage_car Hrec Hd).
Defined.

Lemma gpu_request_without_devices_raises_witness :
  Fixture.env_cuda (Some "-1") "CUDA_VISIBLE_DEVICES" = Some "-1" /\
  is_digit "-"%char = false /\
  object_detection Fixture.imread Fixture.preprocess Fixture.predictor_run
    Fixture.dir_writable Fixture.save_name Fixture.self_gpu
    (Fixture.env_cuda (Some "-1")) (Some Fixture.three_paths) None 2%Z true
    "out" (2 # 10)%Q true = ([], Raise RuntimeError).
Proof.
  split; [reflexivity|]. split; [reflexivity|].
  apply (gpu_request_without_devices_raises Fixture.imread Fixture.preprocess
           Fixture.predictor_run Fixture.dir_writable Fixture.save_name).
  right; right. exists "-"%char, "1". split; reflexivity.
Defined.

(** A GPU request under a CUDA_VISIBLE_DEVICES that is set and invalid:
    ["9 garbage"] lists no devices, yet its first character is a digit,
    so the check of lines 196-203 passes; no RuntimeError is raised, both
    batches go to the engine (on the GPU predictor that [_set_config]
    created under the same value) and the three records are returned. *)
Lemma gpu_request_with_invalid_devices_runs :
  Fixture.env_garbage "CUDA_VISIBLE_DEVICES" = Some "9 garbage" /\
  spec_valid_devices (Fixture.env_garbage "CUDA_VISIBLE_DEVICES") = false /\
  Fixture.run_garbage = (Fixture.run_garbage_log, Ok Fixture.run3_res) /\
  map fst Fixture.run_garbage_log = [GpuPredictor 0; GpuPredictor 0] /\
  Fixture.run_garbage <> ([], Raise RuntimeError).
Proof.
  split; [reflexivity|]. split; [reflexivity|].
  assert (E : Fixture.run_garbage =
              (Fixture.run_garbage_log, Ok Fixture.run3_res))
    by (vm_compute; reflexivity).
  split; [exact E|]. split; [reflexivity|].
  rewrite E. discriminate.
Qed.

Lemma paths_take_precedence_witness :
  [PStr "street.jpg"] <> [] /\
  object_detection Fixture.imread Fixture.preprocess Fixture.predictor_run
    Fixture.dir_writable Fixture.save_name Fixture.self_cpu
    (Fixture.env_cuda None) (Some [PStr "street.jpg"])
    (Some [Fixture.yard; Fixture.garage]) 1%Z false "out" (2 # 10)%Q true =
  object_detection Fixture.imread Fixture.preprocess Fixture.predictor_run
    Fixture.dir_writable Fixture.save_name Fixture.self_cpu
    (Fixture.env_cuda None) (Some [PStr "street.jpg"])
    None 1%Z false "out" (2 # 10)%Q true.
Proof.
  split; [discriminate|].
  apply (paths_take_precedence Fixture.imread Fixture.preprocess
           Fixture.predictor_run Fixture.dir_writable Fixture.save_name).
  discriminate.
Defined.

Lemma gpu_request_without_gpu_predictor_witness :
  gpu_predictor Fixture.self_cpu = None /\
  object_detection Fixture.imread Fixture.preprocess Fixture.predictor_run
    Fixture.dir_writable Fixture.save_name Fixture.self_cpu
    (Fixture.env_cuda (Some "0"))
    (Some [PStr "street.jpg"; PStr "nowhere.jpg"; PStr "yard.jpg"]) None
    1%Z true "out" (2 # 10)%Q true = ([], Raise AttributeError).
Proof.
  split; [reflexivity|].
  apply (proj1 (proj2 (proj2
           (gpu_request_without_gpu_predictor Fixture.imread
              Fixture.preprocess Fixture.predictor_run Fixture.dir_writable
              Fixture.save_name Fixture.self_cpu
              (Fixture.env_cuda (Some "0"))
              (Some [PStr "street.jpg"; PStr "nowhere.jpg"; PStr "yard.jpg"])
              None 1%Z "out" (2 # 10)%Q true eq_refl)))
           (firstn 1 Fixture.three_items)
           (skipn 1
              (reader Fixture.imread Fixture.preprocess
                 [PStr "street.jpg"; PStr "nowhere.jpg"; PStr "yard.jpg"]
                 None))).
  - reflexivity.
  - reflexivity.
  - reflexivity.
  - cbn. discriminate.
  - left. cbn. lia.
Defined.

Lemma same_environment_gpu_request_witness :
  check_gpu_env (Fixture.env_cuda (Some "0,1")) true = Ok tt /\
  Forall (fun c : Call => fst c = GpuPredictor 0)
    (fst (object_detection Fixture.imread Fixture.preprocess
            Fixture.predictor_run Fixture.dir_writable Fixture.save_name
            (_initialize (Fixture.env_cuda (Some "0,1")) Fixture.labels)
            (Fixture.env_cuda (Some "0,1")) (Some Fixture.three_paths) None
            2%Z true "out" (2 # 10)%Q true)).
Proof.
  split; [reflexivity|].
  exact (proj2 (same_environment_gpu_request Fixture.imread
                  Fixture.preprocess Fixture.predictor_run
                  Fixture.dir_writable Fixture.save_name
                  (Fixture.env_cuda (Some "0,1")) Fixture.labels
                  (Some Fixture.three_paths) None 2%Z "out" (2 # 10)%Q true
                  eq_refl)).
Defined.

Lemma every_input_fed_once_witness :
  Fixture.run3 = (Fixture.run3_log, Ok Fixture.run3_res) /\
  exists items,
    reader Fixture.imread Fixture.preprocess Fixture.three_paths None
    = map Ok items /\
    List.concat (map snd Fixture.run3_log) = items /\
    List.length items <= List.length Fixture.run3_log * 2.
Proof.
  split; [exact fixture_run3|].
  destruct (every_input_fed_once Fixture.imread Fixture.preprocess
              Fixture.predictor_run Fixture.dir_writable Fixture.save_name
              Fixture.self_cpu (Fixture.env_cuda None)
              (Some Fixture.three_paths) None 2%Z false "out" (2 # 10)%Q
              true Fixture.run3_log Fixture.run3_res fixture_run3)
    as (items & H1 & H2 & _ & H3 & _).
  exists items. auto.
Defined.

Lemma result_is_concatenation_witness :
  Fixture.run3 = (Fixture.run3_log, Ok Fixture.run3_res) /\
  exists outs,
    Fixture.run3_res = List.concat outs /\ List.length outs = 2.
Proof.
  split; [exact fixture_run3|].
  destruct (result_is_concatenation Fixture.imread Fixture.preprocess
              Fixture.predictor_run Fixture.dir_writable Fixture.save_name
              Fixture.self_cpu (Fixture.env_cuda None)
              (Some Fixture.three_paths) None 2%Z false "out" (2 # 10)%Q
              true Fixture.run3_log Fixture.run3_res fixture_run3)
    as (outs & H1 & H2 & _).
  exists outs. auto.
Defined.

Lemma no_input_no_inference_witness :
  paths_or_empty None = [] /\
  object_detection Fixture.imread Fixture.preprocess Fixture.predictor_run
    Fixture.dir_writable Fixture.save_name Fixture.self_cpu
    (Fixture.env_cuda None) None (Some []) 1%Z false "out" (2 # 10)%Q true
  = ([], Ok []).
Proof.
  split; [reflexivity|].
  exact (no_input_no_inference Fixture.imread Fixture.preprocess
           Fixture.predictor_run Fixture.dir_writable Fixture.save_name
           Fixture.self_cpu (Fixture.env_cuda None) None (Some []) 1%Z false
           "out" (2 # 10)%Q true eq_refl (or_intror eq_refl)).
Defined.

Lemma serving_decodes_first_witness :
  mapR Fixture.base64_to_cv2 ["c3RyZWV0"] = Ok [Fixture.street] /\
  Fixture.base64_to_cv2 "not an image" = Raise DecodeError /\
  serving_method Fixture.imread Fixture.preprocess Fixture.predictor_run
    Fixture.dir_writable Fixture.save_name Fixture.base64_to_cv2
    Fixture.self_cpu (Fixture.env_cuda None)
    (["c3RyZWV0"] ++ "not an image" :: ["eWFyZA=="]) Fixture.no_kwargs
  = ([], Raise DecodeError).
Proof.
  split; [reflexivity|]. split; [reflexivity|].
  exact (serving_decodes_first Fixture.imread Fixture.preprocess
           Fixture.predictor_run Fixture.dir_writable Fixture.save_name
           Fixture.base64_to_cv2 Fixture.self_cpu (Fixture.env_cuda None)
           ["c3RyZWV0"] "not an image" ["eWFyZA=="] [Fixture.street]
           DecodeError Fixture.no_kwargs eq_refl eq_refl).
Defined.

Lemma fixture_serve2 :
  Fixture.serve2 = (Fixture.serve2_log, Ok Fixture.serve2_res).
Proof.
  vm_compute. reflexivity.
Defined.

Lemma serving_one_record_per_image_witness :
  Fixture.serve2 = (Fixture.serve2_log, Ok Fixture.serve2_res) /\
  List.length Fixture.serve2_res = 2.
Proof.
  split; [exact fixture_serve2|].
  destruct (serving_one_record_per_image Fixture.imread Fixture.preprocess
              Fixture.predictor_run Fixture.dir_writable Fixture.save_name
              Fixture.base64_to_cv2 fixture_engine_per_image
              Fixture.self_cpu (Fixture.env_cuda None) Fixture.two_strings
              Fixture.no_kwargs Fixture.serve2_log Fixture.serve2_res
              eq_refl fixture_serve2) as (decoded & _ & _ & H).
  exact H.
Defined.

Lemma fixture_cmd1 :
  Fixture.cmd1 = (Fixture.cmd1_log, Ok Fixture.cmd1_res).
Proof.
  vm_compute. reflexivity.
Defined.

Lemma run_cmd_returns_one_record_witness :
  Fixture.cmd1 = (Fixture.cmd1_log, Ok Fixture.cmd1_res) /\
  List.length Fixture.cmd1_res = 1.
Proof.
  split; [exact fixture_cmd1|].
  destruct (run_cmd_returns_one_record Fixture.imread Fixture.preprocess
              Fixture.predictor_run Fixture.dir_writable Fixture.save_name
              Fixture.literal_eval fixture_engine_per_image
              Fixture.self_cpu (Fixture.env_cuda None) Fixture.street_argv
              Fixture.cmd1_log Fixture.cmd1_res fixture_cmd1)
    as (args & p & im & _ & _ & _ & H).
  exact H.
Defined.

Lemma run_cmd_gpu_check_first_witness :
  parse_args Fixture.literal_eval Fixture.gpu_none_argv
  = Ok Fixture.gpu_none_args /\
  run_cmd Fixture.imread Fixture.preprocess Fixture.predictor_run
    Fixture.dir_writable Fixture.save_name Fixture.literal_eval
    Fixture.self_cpu (Fixture.env_cuda (Some "-1")) Fixture.gpu_none_argv
  = ([], Raise RuntimeError).
Proof.
  split; [reflexivity|].
  apply (run_cmd_gpu_check_first Fixture.imread Fixture.preprocess
           Fixture.predictor_run Fixture.dir_writable Fixture.save_name
           Fixture.literal_eval Fixture.self_cpu
           (Fixture.env_cuda (Some "-1")) Fixture.gpu_none_argv
           Fixture.gpu_none_args);
    try reflexivity.
  discriminate.
Defined.

Lemma save_inference_model_filenames_witness :
  save_inference_model nat Fixture.load_inference_model
    "yolov3_darknet53_vehicles_model" "export" (Some "") (Some "weights")
    true = Ok Fixture.export_call /\
  save_model_filename Fixture.export_call = Some "__model__" /\
  save_params_filename Fixture.export_call = Some "weights".
Proof.
  split; [reflexivity|].
  destruct (save_inference_model_filenames nat Fixture.load_inference_model
              "yolov3_darknet53_vehicles_model" "export" (Some "")
              (Some "weights") true Fixture.export_call eq_refl)
    as (_ & _ & _ & _ & Hp & Hm & _).
  split.
  - apply Hm. now right.
  - apply (Hp "weights"); [reflexivity | discriminate].
Defined.

